(** * SignEase: progression, analytics and the sign-detection poller

    A shallow embedding of [static/js/gamification.js], of the analytics
    script and of [static/js/modes.js], with the dashboard script, the
    theme switch, the session timer of [main.js] and [static/js/confetti.js].

    Conventions of the embedding.
    - JavaScript numbers that the scripts use as counters, timestamps and
      levels are integers here ([Z]); the detector's confidence and every
      quotient are exact rationals ([Q]), so [Math.round x] is
      [Qfloor (x + 1/2)] and [Math.floor] of an integer quotient is [Z.div].
    - A calendar date ([Date.prototype.toDateString]) is the number of the
      local day: the scripts only compare date strings for equality and use
      them as object keys.  The local zone is a fixed offset from UTC.
    - [localStorage] holds two records.  What [getItem] followed by
      [JSON.parse] can observe of a stored text is kept as an [item].
    - The clock does not move while one handler runs; it moves between
      handlers. *)

From Stdlib Require Import ZArith QArith Qround Qminmax Lia Lqa.
From stdpp Require Import base option list gmap strings pretty.

Local Open Scope Z_scope.

(** ** Completions and the handler monad *)

Inductive exn : Type :=
| SyntaxError   (* JSON.parse on a text that is not JSON *)
| TypeError.    (* property access on null or undefined *)

Inductive completion (A : Type) : Type :=
| Normal (a : A)
| Throw (e : exn).
Arguments Normal {A} a.
Arguments Throw {A} e.

(** What a [localStorage] key holds, as [getItem] and [JSON.parse] see it. *)
Inductive item (A : Type) : Type :=
| Absent          (* getItem returns null *)
| EmptyText       (* the empty string *)
| Corrupt         (* a non-empty text that JSON.parse rejects *)
| Stored (a : A). (* JSON.stringify of the record a *)
Arguments Absent {A}.
Arguments EmptyText {A}.
Arguments Corrupt {A}.
Arguments Stored {A} a.

(** [if (data)] on the result of [getItem]. *)
Definition truthy {A : Type} (i : item A) : bool :=
  match i with
  | Absent | EmptyText => false
  | Corrupt | Stored _ => true
  end.

(** ** Records *)

(** The record under ['signease_game']. *)
Record GameData : Type := mkGame {
  xp : Z;
  level : Z;
  streak : Z;
  lastVisit : Z   (* a date *)
}.

(** The record under ['signease_analytics']. *)
Record AnalyticsData : Type := mkAnalytics {
  totalSigns : Z;
  correctSigns : Z;
  practiceTime : Z;
  dailyProgress : gmap Z Z;   (* date -> count *)
  sessionStart : Z
}.

(** The answer of [GET /latest]. *)
Record Sample : Type := mkSample {
  sign : option string;
  conf : option Q
}.

(** Children of [#transcriptList]. *)
Inductive Node : Type :=
| Placeholder                                   (* the <p> hint *)
| Entry (s : string) (percent : Z) (time : Z).  (* one detected sign *)

(** [#detectionLabel] with its [.sign-name] and [.confidence] children. *)
Record LabelView : Type := mkLabel {
  signName : option string;   (* None: 'No hand detected' *)
  confidence : Z;
  active : bool
}.

(** [#streakCount], [#xpCount], [#levelBadge], [#xpProgressBar]. *)
Record Hud : Type := mkHud {
  streakCount : Z;
  xpCount : Z;
  levelBadge : Z;
  xpProgressBar : Q
}.

Record Page : Type := mkPage {
  detectionLabel : option LabelView;
  transcriptList : option (list Node);
  hud : option Hud;
  progressChart : bool
}.

(** Requests the scripts send and do not wait for. *)
Inductive Request : Type :=
| SaveDetection (s : string) (c : Q)
| SyncProgress (x l s : Z).

(** The fields of the [ModeSwitcher] object. *)
Record Switcher : Type := mkSwitcher {
  detectionInterval : bool;              (* a timer is installed *)
  lastAddedSign : option string;
  lastAddedTime : Z;
  transcriptSigns : option (gset string) (* undefined before the first start *)
}.

Record World : Type := mkWorld {
  clock : Z;                              (* Date.now(), milliseconds *)
  zone : Z;                               (* local offset, milliseconds *)
  game_item : item GameData;
  analytics_item : item AnalyticsData;
  page : Page;
  switcher : Switcher;
  window_Gamification : bool;             (* gamification.js is loaded *)
  window_Analytics : bool;                (* the analytics script is loaded *)
  posted : list Request                   (* newest first *)
}.

Definition set_clock (t : Z) (w : World) : World :=
  mkWorld t (zone w) (game_item w) (analytics_item w) (page w) (switcher w)
          (window_Gamification w) (window_Analytics w) (posted w).
Definition set_game (g : item GameData) (w : World) : World :=
  mkWorld (clock w) (zone w) g (analytics_item w) (page w) (switcher w)
          (window_Gamification w) (window_Analytics w) (posted w).
Definition set_analytics (a : item AnalyticsData) (w : World) : World :=
  mkWorld (clock w) (zone w) (game_item w) a (page w) (switcher w)
          (window_Gamification w) (window_Analytics w) (posted w).
Definition set_page (p : Page) (w : World) : World :=
  mkWorld (clock w) (zone w) (game_item w) (analytics_item w) p (switcher w)
          (window_Gamification w) (window_Analytics w) (posted w).
Definition set_switcher (s : Switcher) (w : World) : World :=
  mkWorld (clock w) (zone w) (game_item w) (analytics_item w) (page w) s
          (window_Gamification w) (window_Analytics w) (posted w).
Definition set_posted (r : list Request) (w : World) : World :=
  mkWorld (clock w) (zone w) (game_item w) (analytics_item w) (page w)
          (switcher w) (window_Gamification w) (window_Analytics w) r.

(** A handler: it ends normally or throws, and leaves a world behind in
    both cases. *)
Definition JS (A : Type) : Type := World → completion A * World.

#[global] Instance JS_ret : MRet JS := λ A a w, (Normal a, w).
#[global] Instance JS_bind : MBind JS := λ A B k m w,
  match m w with
  | (Normal a, w') => k a w'
  | (Throw e, w') => (Throw e, w')
  end.

Definition throw {A : Type} (e : exn) : JS A := λ w, (Throw e, w).
Definition reads {A : Type} (f : World → A) : JS A := λ w, (Normal (f w), w).
Definition writes (f : World → World) : JS unit := λ w, (Normal tt, f w).

(** [try { m } catch (error) { console.error(...) }] *)
Definition try_catch (m : JS unit) : JS unit := λ w,
  match m w with
  | (Normal _, w') => (Normal tt, w')
  | (Throw _, w') => (Normal tt, w')
  end.

Definition exec {A : Type} (m : JS A) (w : World) : World := snd (m w).
Definition outcome {A : Type} (m : JS A) (w : World) : completion A := fst (m w).

(** [if (b) m] without an else branch. *)
Definition when (b : bool) (m : JS unit) : JS unit :=
  if b then m else mret tt.

(** ** Platform *)

Definition msPerDay : Z := 86400000.

Definition Date_now : JS Z := reads clock.

(** [new Date(t).toDateString()] *)
Definition toDateString (t : Z) : JS Z := reads (λ w, (t + zone w) `div` msPerDay).

(** [JSON.parse] on what [getItem] returned. *)
Definition JSON_parse {A : Type} (i : item A) : JS A :=
  match i with
  | Stored a => mret a
  | _ => throw SyntaxError
  end.

(** [Math.round] *)
Definition Math_round (x : Q) : Z := Qfloor (x + (1 # 2)).

(** ** gamification.js *)

Module Gamification.

Definition getData : JS GameData :=
  data ← reads game_item;
  if truthy data then JSON_parse data
  else
    today ← (now ← Date_now; toDateString now);
    mret {| xp := 0; level := 1; streak := 0; lastVisit := today |}.

Definition saveData (data : GameData) : JS unit :=
  writes (set_game (Stored data)).

Definition getLevel (xp : Z) : Z := xp `div` 100 + 1.


Definition getProgress (xp level : Z) : Q :=
  let currentLevelXP := (level - 1) * 100 in
  let nextLevelXP := level * 100 in
  let progress :=
    (inject_Z (xp - currentLevelXP) / inject_Z (nextLevelXP - currentLevelXP)
     * 100)%Q in
  Qmin (Qmax progress 0) 100.

(** The popup was removed: the body is empty. *)
Definition showLevelUp (level : Z) : JS unit := mret tt.

(** The four elements are written without a check: a missing one throws.
    [renderRewards] belongs to another page script and only paints. *)
Definition updateUI : JS unit :=
  data ← getData;
  let progress := getProgress (xp data) (level data) in
  p ← reads page;
  match hud p with
  | None => throw TypeError
  | Some _ =>
      writes (set_page
        (mkPage (detectionLabel p) (transcriptList p)
                (Some (mkHud (streak data) (xp data) (level data) progress))
                (progressChart p)))
  end.

Definition addXP (amount : Z) : JS unit :=
  data ← getData;
  let data := mkGame (xp data + amount) (level data) (streak data) (lastVisit data) in
  let newLevel := getLevel (xp data) in
  data ← (if level data <? newLevel
          then
            let data := mkGame (xp data) newLevel (streak data) (lastVisit data) in
            showLevelUp newLevel;; mret data
          else mret data);
  saveData data;;
  updateUI.

Definition updateStreak : JS unit :=
  data ← getData;
  today ← (now ← Date_now; toDateString now);
  yesterday ← (now ← Date_now; toDateString (now - 86400000));
  let data :=
    if lastVisit data =? yesterday
    then mkGame (xp data) (level data) (streak data + 1) (lastVisit data)
    else if negb (lastVisit data =? today)
    then mkGame (xp data) (level data) 1 (lastVisit data)
    else data in
  let data := mkGame (xp data) (level data) (streak data) today in
  saveData data;;
  updateUI.

(** [getData] is called before the [try]: a throw there rejects the
    promise; a failed [fetch] is caught and logged. *)
Definition syncToServer : JS unit :=
  data ← getData;
  writes (λ w, set_posted
    (SyncProgress (xp data) (level data) (streak data) :: posted w) w).

(** [init] also installs the timer that calls [syncToServer] every 30 s. *)
Definition init : JS unit :=
  updateStreak;;
  updateUI.

End Gamification.

(** ** The analytics script *)

(** [for (let i = n - 1; i >= 0; i--) body] threading the loop state. *)
Fixpoint for_down {S : Type} (n : nat) (body : Z → S → JS S) (s : S) : JS S :=
  match n with
  | O => mret s
  | S i => s' ← body (Z.of_nat i) s; for_down i body s'
  end.

(** [toLocaleDateString('en-US', { weekday: 'short' })]; day 0 of the epoch
    is a Thursday. *)
Definition weekdayName (day : Z) : string :=
  match (day + 4) `mod` 7 with
  | 0 => "Sun" | 1 => "Mon" | 2 => "Tue" | 3 => "Wed"
  | 4 => "Thu" | 5 => "Fri" | _ => "Sat"
  end.

Definition weekdayShort (t : Z) : JS string :=
  day ← toDateString t;
  mret (weekdayName day).

(** A template literal around an integer. *)
Definition decimal (n : Z) : string := pretty n.

(** What [drawChart] paints for one day: the rectangle it fills, and where
    it writes the count and the weekday. *)
Record Bar : Type := mkBar {
  bar_x : Q;
  bar_y : Q;
  bar_width : Q;
  bar_height : Q;
  text_x : Q;
  value_y : Q;
  label_y : Q
}.

Module Analytics.

Definition getData : JS AnalyticsData :=
  data ← reads analytics_item;
  if truthy data then JSON_parse data
  else
    now ← Date_now;
    mret {| totalSigns := 0; correctSigns := 0; practiceTime := 0;
            dailyProgress := ∅; sessionStart := now |}.

Definition saveData (data : AnalyticsData) : JS unit :=
  writes (set_analytics (Stored data)).

Definition getAccuracy : JS Z :=
  data ← getData;
  if totalSigns data =? 0 then mret 0
  else mret (Math_round
               (inject_Z (correctSigns data) / inject_Z (totalSigns data) * 100)%Q).

Definition getLast7Days : JS (list Z * list string) :=
  data ← getData;
  for_down 7 (λ i '(days, labels),
    now ← Date_now;
    let date := now - i * 86400000 in
    dateStr ← toDateString date;
    let count := default 0 (dailyProgress data !! dateStr) in
    label ← weekdayShort date;
    mret (days ++ [count], labels ++ [label])) ([], []).

(** The bars are painted on the canvas; only the read is kept. *)
Definition drawChart : JS unit :=
  p ← reads page;
  if progressChart p then _ ← getLast7Days; mret tt
  else mret tt.

(** The three statistics are written to elements that are looked up and
    skipped when missing. *)
Definition updateUI : JS unit :=
  data ← getData;
  accuracy ← getAccuracy;
  drawChart.

(** [!data.dailyProgress[today]]: undefined and 0 are falsy. *)
Definition falsy (c : option Z) : bool :=
  match c with
  | None => true
  | Some c => c =? 0
  end.

Definition trackSign (isCorrect : bool) : JS unit :=
  data ← getData;
  let total := totalSigns data + 1 in
  let correct := if isCorrect then correctSigns data + 1 else correctSigns data in
  today ← (now ← Date_now; toDateString now);
  let daily := dailyProgress data in
  let daily := if falsy (daily !! today) then <[today := 0]> daily else daily in
  let daily := <[today := default 0 (daily !! today) + 1]> daily in
  saveData (mkAnalytics total correct (practiceTime data) daily (sessionStart data));;
  updateUI.

Definition updatePracticeTime : JS unit :=
  data ← getData;
  now ← Date_now;
  let elapsed := (now - sessionStart data) `div` 1000 in
  now' ← Date_now;
  saveData (mkAnalytics (totalSigns data) (correctSigns data)
                        (practiceTime data + elapsed) (dailyProgress data) now').

(** [init] also installs the timer that calls [updatePracticeTime] every
    minute. *)
Definition init : JS unit := updateUI.

(** The remainder [%] takes the sign of the dividend. *)
Definition formatTime (seconds : Z) : string :=
  let hours := seconds `div` 3600 in
  let minutes := (seconds `rem` 3600) `div` 60 in
  if 0 <? hours then decimal hours +:+ "h " +:+ decimal minutes +:+ "m"
  else decimal minutes +:+ "m".

(** [Math.max(...days, 10)] *)
Definition maxValue (days : list Z) : Z := foldr Z.max 10 days.

(** The geometry of [drawChart] on a canvas of the given size. *)
Definition bars (width height : Z) (days : list Z) : list Bar :=
  let padding := 40%Q in
  let barWidth := ((inject_Z width - padding * 2) / inject_Z (Z.of_nat (length days)))%Q in
  let maxValue := maxValue days in
  imap (λ index value,
    let barHeight :=
      (inject_Z value / inject_Z maxValue * (inject_Z height - padding * 2))%Q in
    let x := (padding + inject_Z (Z.of_nat index) * barWidth + barWidth * (2 # 10))%Q in
    let y := (inject_Z height - padding - barHeight)%Q in
    mkBar x y (barWidth * (6 # 10))%Q barHeight
          (x + barWidth * (3 # 10))%Q (y - 5)%Q
          (inject_Z height - padding + 20)%Q) days.

End Analytics.

(** ** modes.js *)

(** A [.mode-btn] button. *)
Record ModeButton : Type := mkButton {
  data_mode : string;
  btn_active : bool;            (* the class 'active' *)
  btn_listeners : nat           (* click listeners added by init *)
}.

(** The part of the page and of the browser that only the mode switch
    touches, around the world of the handlers. *)
Record Shell : Type := mkShell {
  world : World;
  currentMode : string;
  learningMode : option string;          (* localStorage 'learningMode' *)
  modeButtons : list ModeButton;
  signMode : option bool;                 (* #signMode, shown as a block *)
  speechMode : option bool;               (* #speechMode, shown as a block *)
  speechToggle : option nat;              (* #speech-toggle and the click
                                             listeners the switcher added *)
  window_toggleRecording : bool;          (* the main script is loaded *)
  toggleRecordingCalls : nat
}.

Definition set_world (w : World) (sh : Shell) : Shell :=
  mkShell w (currentMode sh) (learningMode sh) (modeButtons sh) (signMode sh)
          (speechMode sh) (speechToggle sh) (window_toggleRecording sh)
          (toggleRecordingCalls sh).

(** A handler on the whole page. *)
Definition SH (A : Type) : Type := Shell → completion A * Shell.

#[global] Instance SH_ret : MRet SH := λ A a sh, (Normal a, sh).
#[global] Instance SH_bind : MBind SH := λ A B k m sh,
  match m sh with
  | (Normal a, sh') => k a sh'
  | (Throw e, sh') => (Throw e, sh')
  end.

Definition sh_throw {A : Type} (e : exn) : SH A := λ sh, (Throw e, sh).
Definition sh_reads {A : Type} (f : Shell → A) : SH A := λ sh, (Normal (f sh), sh).
Definition sh_writes (f : Shell → Shell) : SH unit := λ sh, (Normal tt, f sh).

(** A handler of the world, run inside the page. *)
Definition lift {A : Type} (m : JS A) : SH A := λ sh,
  match m (world sh) with
  | (c, w') => (c, set_world w' sh)
  end.

(** A click runs the handler once per listener; a listener that throws
    does not keep the next one from running. *)
Fixpoint dispatch (n : nat) (m : SH unit) : SH unit := λ sh,
  match n with
  | O => (Normal tt, sh)
  | S n => dispatch n m (m sh).2
  end.

Module ModeSwitcher.

(** The timer installed here runs [pollTick] every 300 ms. *)
Definition startSignDetection : JS unit :=
  sw ← reads switcher;
  if detectionInterval sw then mret tt
  else writes (set_switcher (mkSwitcher true None 0 (Some ∅))).

Definition stopSignDetection : JS unit :=
  sw ← reads switcher;
  if detectionInterval sw
  then writes (set_switcher
         (mkSwitcher false (lastAddedSign sw) (lastAddedTime sw) (transcriptSigns sw)))
  else mret tt.

Definition onCorrectDetection : JS unit :=
  g ← reads window_Gamification;
  when g (Gamification.addXP 10);;
  a ← reads window_Analytics;
  when a (Analytics.trackSign true).

(** The request is sent; its answer is only logged. *)
Definition saveToDatabase (sign : string) (confidence : Q) : JS unit :=
  writes (λ w, set_posted (SaveDetection sign confidence :: posted w) w).

(** [transcriptList.querySelector('p')]: entries hold no paragraph. *)
Definition has_p (children : list Node) : bool :=
  existsb (λ n, match n with Placeholder => true | Entry _ _ _ => false end) children.

(** The entry shows the sign in upper case and the time of day; it is
    kept here by the sign, the percentage and the instant. *)
Definition addToTranscript (sign : string) (confidence : Z) : JS unit :=
  p ← reads page;
  match transcriptList p with
  | None => mret tt
  | Some children =>
      time ← Date_now;
      let entry := Entry sign confidence time in
      let children := if has_p children then [] else children in
      let children := entry :: children in
      let children :=
        if (20 <? Z.of_nat (length children)) then removelast children
        else children in
      writes (set_page (mkPage (detectionLabel p) (Some children) (hud p)
                               (progressChart p)));;
      saveToDatabase sign (inject_Z confidence / 100)%Q
  end.

(** [await fetch('/latest')] then [await response.json()]: a failed
    request or an unreadable body throws inside the [try]. *)
Definition fetch_latest (response : option Sample) : JS Sample :=
  match response with
  | Some data => mret data
  | None => throw TypeError
  end.

(** [data.sign && data.conf >= 0.75] *)
Definition shown (data : Sample) : option (string * Q) :=
  match sign data, conf data with
  | Some s, Some c =>
      if negb (String.eqb s "") && Qle_bool (75 # 100) c then Some (s, c) else None
  | _, _ => None
  end.

Definition set_label (v : LabelView) : JS unit :=
  writes (λ w, set_page (mkPage (Some v) (transcriptList (page w)) (hud (page w))
                                (progressChart (page w))) w).

(** The body of the interval callback, run when the poll is answered. *)
Definition pollTick (response : option Sample) : JS unit :=
  try_catch (
    data ← fetch_latest response;
    p ← reads page;
    match detectionLabel p with
    | None => mret tt
    | Some _ =>
        match shown data with
        | Some (s, c) =>
            let conf := Math_round (c * 100)%Q in
            set_label (mkLabel (Some s) conf true);;
            now ← Date_now;
            sw ← reads switcher;
            match transcriptSigns sw with
            | None => throw TypeError
            | Some signs =>
                if (80 <=? conf) && negb (bool_decide (s ∈ signs)) then
                  addToTranscript s conf;;
                  onCorrectDetection;;
                  writes (λ w,
                    let sw := switcher w in
                    set_switcher
                      (mkSwitcher (detectionInterval sw) (Some s) now
                         (match transcriptSigns sw with
                          | Some signs => Some ({[s]} ∪ signs)
                          | None => None
                          end)) w)
                else mret tt
            end
        | None => set_label (mkLabel None 0 false)
        end
    end).

Definition clearTranscript : JS unit :=
  p ← reads page;
  (match transcriptList p with
   | Some _ => writes (set_page (mkPage (detectionLabel p) (Some [Placeholder])
                                        (hud p) (progressChart p)))
   | None => mret tt
   end);;
  sw ← reads switcher;
  match transcriptSigns sw with
  | Some _ => writes (set_switcher
                (mkSwitcher (detectionInterval sw) (lastAddedSign sw)
                            (lastAddedTime sw) (Some ∅)))
  | None => mret tt
  end.

(** [toggleBtn.addEventListener('click', () => this.toggleSpeech())]: the
    arrow function is a new one at every call, so a listener is added. *)
Definition initSpeechRecognition : SH unit :=
  sh_writes (λ sh,
    match speechToggle sh with
    | None => sh
    | Some n =>
        mkShell (world sh) (currentMode sh) (learningMode sh) (modeButtons sh)
                (signMode sh) (speechMode sh) (Some (S n))
                (window_toggleRecording sh) (toggleRecordingCalls sh)
    end).

Definition toggleSpeech : SH unit :=
  sh_writes (λ sh,
    if window_toggleRecording sh then
      mkShell (world sh) (currentMode sh) (learningMode sh) (modeButtons sh)
              (signMode sh) (speechMode sh) (speechToggle sh)
              (window_toggleRecording sh) (S (toggleRecordingCalls sh))
    else sh).

(** [style.display] is set on the element without a check. *)
Definition show_signMode (visible : bool) : SH unit :=
  panel ← sh_reads signMode;
  match panel with
  | None => sh_throw TypeError
  | Some _ =>
      sh_writes (λ sh,
        mkShell (world sh) (currentMode sh) (learningMode sh) (modeButtons sh)
                (Some visible) (speechMode sh) (speechToggle sh)
                (window_toggleRecording sh) (toggleRecordingCalls sh))
  end.

Definition show_speechMode (visible : bool) : SH unit :=
  panel ← sh_reads speechMode;
  match panel with
  | None => sh_throw TypeError
  | Some _ =>
      sh_writes (λ sh,
        mkShell (world sh) (currentMode sh) (learningMode sh) (modeButtons sh)
                (signMode sh) (Some visible) (speechToggle sh)
                (window_toggleRecording sh) (toggleRecordingCalls sh))
  end.

Definition switchMode (mode : string) : SH unit :=
  sh_writes (λ sh,
    mkShell (world sh) mode (Some mode)
            ((λ btn, mkButton (data_mode btn) (String.eqb (data_mode btn) mode)
                              (btn_listeners btn)) <$> modeButtons sh)
            (signMode sh) (speechMode sh) (speechToggle sh)
            (window_toggleRecording sh) (toggleRecordingCalls sh));;
  show_signMode (String.eqb mode "sign");;
  show_speechMode (String.eqb mode "speech");;
  if String.eqb mode "sign" then lift startSignDetection
  else lift stopSignDetection;; initSpeechRecognition.

(** [localStorage.getItem('learningMode') || 'sign'] *)
Definition savedMode (stored : option string) : string :=
  match stored with
  | Some mode => if String.eqb mode "" then "sign" else mode
  | None => "sign"
  end.

Definition init : SH unit :=
  stored ← sh_reads learningMode;
  switchMode (savedMode stored);;
  sh_writes (λ sh,
    mkShell (world sh) (currentMode sh) (learningMode sh)
            ((λ btn, mkButton (data_mode btn) (btn_active btn)
                              (S (btn_listeners btn))) <$> modeButtons sh)
            (signMode sh) (speechMode sh) (speechToggle sh)
            (window_toggleRecording sh) (toggleRecordingCalls sh)).

(** A click on a mode button runs each of its listeners on its mode. *)
Definition clickMode (btn : ModeButton) : SH unit :=
  dispatch (btn_listeners btn) (switchMode (data_mode btn)).

(** A click on [#speech-toggle] runs each listener the switcher added. *)
Definition clickSpeechToggle : SH unit :=
  toggle ← sh_reads speechToggle;
  match toggle with
  | None => mret tt
  | Some n => dispatch n toggleSpeech
  end.

End ModeSwitcher.

(** ** Sessions *)

(** What happens on the sign page: time passes or a handler runs. *)
Inductive event : Type :=
| ClockAt (t : Z)                   (* time passes: Date.now() is t *)
| Start                             (* startSignDetection() *)
| Stop                              (* stopSignDetection() *)
| Poll (response : option Sample)   (* a poll is answered *)
| Clear.                            (* clearTranscript() *)

Definition step (e : event) (w : World) : World :=
  match e with
  | ClockAt t => set_clock t w
  | Start => exec ModeSwitcher.startSignDetection w
  | Stop => exec ModeSwitcher.stopSignDetection w
  | Poll r => exec (ModeSwitcher.pollTick r) w
  | Clear => exec ModeSwitcher.clearTranscript w
  end.

Definition run (es : list event) (w : World) : World :=
  foldl (λ w e, step e w) w es.

(** ** The dashboard script and the theme switch *)

(** [String.prototype.padStart]: [k] characters taken from the pad string
    over and over. *)
Fixpoint padding (k : nat) (pad cur : string) : string :=
  match k with
  | O => ""
  | S k =>
      match cur with
      | String c cur => String c (padding k pad cur)
      | EmptyString =>
          match pad with
          | String c pad' => String c (padding k pad pad')
          | EmptyString => ""
          end
      end
  end.

Definition padStart (target : nat) (pad s : string) : string :=
  if (String.length s <? target)%nat
  then padding (target - String.length s) pad pad +:+ s
  else s.


(** The globals of the dashboard script and the elements it writes. *)
Record Dashboard : Type := mkDashboard {
  sessionStartTime : Z;
  detectionCount : Z;
  signCounts : gmap string Z;
  el_session_time : option string;        (* #session-time *)
  el_today_detections : option Z;         (* #today-detections *)
  el_most_common_sign : option string     (* #most-common-sign *)
}.

Module Main.

(** The text of [updateSessionTime] for the seconds elapsed. *)
Definition timeString (elapsed : Z) : string :=
  let minutes := elapsed `div` 60 in
  let seconds := elapsed `rem` 60 in
  decimal minutes +:+ ":" +:+ padStart 2 "0" (decimal seconds).

(** The element is written without a check. *)
Definition updateSessionTime (now : Z) (d : Dashboard) : completion unit * Dashboard :=
  let elapsed := (now - sessionStartTime d) `div` 1000 in
  match el_session_time d with
  | None => (Throw TypeError, d)
  | Some _ =>
      (Normal tt,
       mkDashboard (sessionStartTime d) (detectionCount d) (signCounts d)
                   (Some (timeString elapsed)) (el_today_detections d)
                   (el_most_common_sign d))
  end.


(** [signCounts[a] > signCounts[b]]: a missing count compares false. *)
Definition more (counts : gmap string Z) (a b : string) : bool :=
  match counts !! a, counts !! b with
  | Some x, Some y => y <? x
  | _, _ => false
  end.



End Main.

(** The timer of the page script: one more second, and the text it shows
    when [#session-time] exists. *)
Module SessionTimer.

Definition text (sessionSeconds : Z) : string :=
  let minutes := sessionSeconds `div` 60 in
  let seconds := sessionSeconds `rem` 60 in
  decimal minutes +:+ ":" +:+ (if seconds <? 10 then "0" else "") +:+ decimal seconds.

Definition tick (state : Z * option string) : Z * option string :=
  let sessionSeconds := state.1 + 1 in
  match state.2 with
  | Some _ => (sessionSeconds, Some (text sessionSeconds))
  | None => (sessionSeconds, None)
  end.

End SessionTimer.

(** What the theme switch reads and writes. *)
Record ThemePage : Type := mkThemePage {
  data_theme : option string;     (* the attribute of the root element *)
  theme_item : option string;     (* localStorage 'theme' *)
  themeIcon : option string;      (* the class of '#themeToggle i' *)
  themeToggle : option nat        (* #themeToggle and its click listeners *)
}.

Module Theme.

Definition updateIcon (theme : string) (p : ThemePage) : ThemePage :=
  match themeIcon p with
  | None => p
  | Some _ =>
      mkThemePage (data_theme p) (theme_item p)
                  (Some (if String.eqb theme "dark" then "fas fa-sun" else "fas fa-moon"))
                  (themeToggle p)
  end.

Definition init (p : ThemePage) : ThemePage :=
  let savedTheme := match theme_item p with
                    | Some t => if String.eqb t "" then "light" else t
                    | None => "light"
                    end in
  let p := mkThemePage (Some savedTheme) (theme_item p) (themeIcon p) (themeToggle p) in
  let p := updateIcon savedTheme p in
  match themeToggle p with
  | None => p
  | Some n => mkThemePage (data_theme p) (theme_item p) (themeIcon p) (Some (S n))
  end.

Definition toggle (p : ThemePage) : ThemePage :=
  let newTheme := match data_theme p with
                  | Some current => if String.eqb current "dark" then "light" else "dark"
                  | None => "dark"
                  end in
  let p := mkThemePage (Some newTheme) (Some newTheme) (themeIcon p) (themeToggle p) in
  updateIcon newTheme p.

End Theme.

(** What [#latest-detection] shows. *)
Inductive LatestView : Type :=
| LatestSign (s : string) (percent : option Z)   (* None: NaN *)
| LatestWaiting
| LatestError.

(** What [fetchLatestDetection] reads and writes: the last save the script
    remembers, the element [#latest-detection], the detections handed to
    [saveDetection], newest first, each with the instant read just before,
    and the refreshes of today's history asked for. *)
Record Feed : Type := mkFeed {
  lastSavedSign : option string;                      (* None: null *)
  lastSavedTime : Z;
  el_latest_detection : option (option LatestView);   (* None: no such element *)
  saved_detections : list (Z * string * option Q);
  history_refreshes : nat
}.

Module Latest.

(** [element.innerHTML = ...] on [#latest-detection]. *)
Definition show (v : LatestView) (f : Feed) : completion unit * Feed :=
  match el_latest_detection f with
  | None => (Throw TypeError, f)
  | Some _ =>
      (Normal tt,
       mkFeed (lastSavedSign f) (lastSavedTime f) (Some (Some v))
              (saved_detections f) (history_refreshes f))
  end.

(** [saveDetection] catches its own failures; the assignments and the
    [setTimeout] follow the [await]. *)
Definition save (now : Z) (s : string) (c : option Q) (f : Feed) : Feed :=
  mkFeed (Some s) now (el_latest_detection f)
         ((now, s, c) :: saved_detections f) (S (history_refreshes f)).

(** [data.sign !== lastSavedSign || (currentTime - lastSavedTime) > 5000] *)
Definition due (now : Z) (s : string) (f : Feed) : bool :=
  negb (bool_decide (lastSavedSign f = Some s)) || (5000 <? now - lastSavedTime f).

(** The [try] block, entered with the answer of [GET /latest]. *)
Definition attempt (now : Z) (data : Sample) (f : Feed) : completion unit * Feed :=
  match sign data with
  | Some s =>
      if String.eqb s "" then show LatestWaiting f
      else
        let confidence := (λ c, Math_round (c * 100)) <$> conf data in
        match show (LatestSign s confidence) f with
        | (Normal _, f) =>
            if due now s f then (Normal tt, save now s (conf data) f)
            else (Normal tt, f)
        | (Throw e, f) => (Throw e, f)
        end
  | None => show LatestWaiting f
  end.

(** One call, finished before the next one begins; [None] is a request
    that failed.  The [catch] block writes the element again. *)
Definition fetchLatestDetection (now : Z) (response : option Sample) (f : Feed)
  : completion unit * Feed :=
  match response with
  | None => show LatestError f
  | Some data =>
      match attempt now data f with
      | (Normal _, f) => (Normal tt, f)
      | (Throw _, f) => show LatestError f
      end
  end.

End Latest.

(** ** confetti.js *)

Record Particle : Type := mkParticle {
  p_x : Q;
  p_y : Q;
  p_size : Q;
  p_speedY : Q;
  p_speedX : Q;
  p_color : option string;   (* None: undefined *)
  p_rotation : Q;
  p_rotationSpeed : Q
}.

(** The seven numbers [Math.random()] hands to one [createParticle]. *)
Record Draws : Type := mkDraws {
  r_x : Q;
  r_size : Q;
  r_speedY : Q;
  r_speedX : Q;
  r_color : Q;
  r_rotation : Q;
  r_rotationSpeed : Q
}.

Module Confetti.

Definition colors : list string :=
  ["#ff6b6b"; "#4ecdc4"; "#45b7d1"; "#ffd93d"; "#6bcf7f"].

Definition createParticle (width : Z) (r : Draws) : Particle :=
  {| p_x := r_x r * inject_Z width;
     p_y := -10;
     p_size := r_size r * 8 + 4;
     p_speedY := r_speedY r * 3 + 2;
     p_speedX := r_speedX r * 2 - 1;
     p_color := colors !! Z.to_nat (Qfloor (r_color r * 5));
     p_rotation := r_rotation r * 360;
     p_rotationSpeed := r_rotationSpeed r * 10 - 5 |}%Q.

(** The particle after one frame. *)
Definition move (p : Particle) : Particle :=
  mkParticle (p_x p + p_speedX p) (p_y p + p_speedY p) (p_size p) (p_speedY p)
             (p_speedX p) (p_color p) (p_rotation p + p_rotationSpeed p)
             (p_rotationSpeed p).

(** The loop of [animate], from the index [n - 1] down to 0: the particle
    is moved in place and spliced out once it is below the canvas. *)
Fixpoint sweep (height : Z) (n : nat) (particles : list Particle) : list Particle :=
  match n with
  | O => particles
  | S i =>
      match particles !! i with
      | None => sweep height i particles
      | Some p =>
          let p := move p in
          let particles := <[i := p]> particles in
          let particles :=
            if Qle_bool (p_y p) (inject_Z height) then particles
            else delete i particles in
          sweep height i particles
      end
  end.

(** One call of [animate]: the particles left, and whether another frame
    is requested. *)
Definition animate (height : Z) (particles : list Particle) : list Particle * bool :=
  let particles := sweep height (length particles) particles in
  (particles, negb (bool_decide (particles = []))).

(** [animate] and the frames it requests, at most [frames] of them. *)
Fixpoint animation (height : Z) (frames : nat) (particles : list Particle)
  : list Particle * bool :=
  match frames with
  | O => (particles, true)
  | S frames =>
      match animate height particles with
      | (particles, true) => animation height frames particles
      | (particles, false) => (particles, false)
      end
  end.

(** [burst] on a canvas of the given size: fifty particles are pushed,
    the first call of [animate] follows. *)
Definition burst (width : Z) (draws : nat → Draws) (particles : list Particle)
  : list Particle :=
  particles ++ ((λ i, createParticle width (draws i)) <$> seq 0 50).

End Confetti.

(** ** Views used by the statements *)

(** The local date when the handler runs. *)
Definition today (w : World) : Z := (clock w + zone w) `div` msPerDay.

(** The record [Gamification.getData] hands out when it does not throw. *)
Definition loadGame (w : World) : GameData :=
  match game_item w with
  | Stored d => d
  | _ => {| xp := 0; level := 1; streak := 0; lastVisit := today w |}
  end.

(** The record [Analytics.getData] hands out when it does not throw. *)
Definition loadAnalytics (w : World) : AnalyticsData :=
  match analytics_item w with
  | Stored d => d
  | _ => {| totalSigns := 0; correctSigns := 0; practiceTime := 0;
            dailyProgress := ∅; sessionStart := clock w |}
  end.

Definition readable {A : Type} (i : item A) : bool :=
  match i with
  | Corrupt => false
  | _ => true
  end.

(** The level is the one [getLevel] derives from the experience. *)
Definition level_ok (d : GameData) : Prop :=
  level d = xp d `div` 100 + 1.

(** The sign page with both engines loaded, readable records and a started
    poller. *)
Definition ready (w : World) : bool :=
  bool_decide (is_Some (detectionLabel (page w)))
  && bool_decide (is_Some (transcriptList (page w)))
  && bool_decide (is_Some (hud (page w)))
  && window_Gamification w && window_Analytics w
  && readable (game_item w) && readable (analytics_item w)
  && bool_decide (is_Some (transcriptSigns (switcher w))).

(** The dedup set, empty while undefined. *)
Definition accepted (w : World) : gset string :=
  default ∅ (transcriptSigns (switcher w)).

(** The entries of the transcript, newest first. *)
Definition transcript (w : World) : list Node :=
  default [] (transcriptList (page w)).


(** Nothing but the detection label changed. *)
Definition only_shown (w w' : World) : Prop :=
  transcriptList (page w') = transcriptList (page w)
  ∧ posted w' = posted w
  ∧ switcher w' = switcher w
  ∧ game_item w' = game_item w
  ∧ analytics_item w' = analytics_item w.

(** The number of [POST /save_detection] requests for the sign [s]. *)
Definition is_save (s : string) (r : Request) : bool :=
  match r with
  | SaveDetection s' _ => String.eqb s' s
  | SyncProgress _ _ _ => false
  end.

Definition saves (s : string) (w : World) : nat :=
  length (List.filter (is_save s) (posted w)).


(** [trackSign] called once per pair, at the given instant. *)
Definition trackAll (calls : list (Z * bool)) (w : World) : World :=
  foldl (λ w c, exec (Analytics.trackSign c.2) (set_clock c.1 w)) w calls.

(** A sample with both fields. *)
Definition sample (s : string) (c : Q) : option Sample :=
  Some {| sign := Some s; conf := Some c |}.

(** A first visit of the sign page at instant [t]: nothing is stored, the
    transcript shows its hint, the poller has been started. *)
Definition firstVisit (t : Z) : World :=
  {| clock := t; zone := 0;
     game_item := Absent; analytics_item := Absent;
     page := {| detectionLabel := Some (mkLabel None 0 false);
                transcriptList := Some [Placeholder];
                hud := Some (mkHud 0 0 1 0);
                progressChart := true |};
     switcher := mkSwitcher true None 0 (Some ∅);
     window_Gamification := true; window_Analytics := true;
     posted := [] |}.

(** The record [addXP amount] saves when it has loaded [d]. *)
Definition gained (amount : Z) (d : GameData) : GameData :=
  let x := xp d + amount in
  let l := Gamification.getLevel x in
  mkGame x (if level d <? l then l else level d) (streak d) (lastVisit d).

(** The record [updateStreak] saves on the date [day] when it has loaded [d]. *)
Definition visited (day : Z) (d : GameData) : GameData :=
  mkGame (xp d) (level d)
         (if lastVisit d =? day - 1 then streak d + 1
          else if negb (lastVisit d =? day) then 1 else streak d)
         day.

(** The page after the detection label is rewritten. *)
Definition labelled (v : LabelView) (w : World) : World :=
  set_page (mkPage (Some v) (transcriptList (page w)) (hud (page w))
                   (progressChart (page w))) w.

(** The children of the transcript after [addToTranscript] put an entry in
    front of [children]. *)
Definition entered (e : Node) (children : list Node) : list Node :=
  let children := e :: (if ModeSwitcher.has_p children then [] else children) in
  if 20 <? Z.of_nat (length children) then removelast children else children.

(** The world after [addToTranscript s pct] found the list [children]. *)
Definition noted (s : string) (pct : Z) (children : list Node) (w : World) : World :=
  set_posted (SaveDetection s (inject_Z pct / 100)%Q :: posted w)
    (set_page (mkPage (detectionLabel (page w))
                      (Some (entered (Entry s pct (clock w)) children))
                      (hud (page w)) (progressChart (page w))) w).

(** The offsets [n - 1, ..., 0] a downward loop visits. *)
Definition offsets (n : nat) : list Z := Z.of_nat <$> rev (seq 0 n).

(** The count [getLast7Days] reads for a date. *)
Definition countOn (d : AnalyticsData) (day : Z) : Z :=
  default 0 (dailyProgress d !! day).

(** The percentage [getAccuracy] derives from a record. *)
Definition accuracyOf (d : AnalyticsData) : Z :=
  if totalSigns d =? 0 then 0
  else Math_round (inject_Z (correctSigns d) / inject_Z (totalSigns d) * 100)%Q.

(** What [updateUI] writes into the four elements. *)
Definition hudOf (d : GameData) : Hud :=
  mkHud (streak d) (xp d) (level d) (Gamification.getProgress (xp d) (level d)).

Definition set_hud (h : Hud) (w : World) : World :=
  set_page (mkPage (detectionLabel (page w)) (transcriptList (page w)) (Some h)
                   (progressChart (page w))) w.

(** The record [trackSign isCorrect] saves on the date [day] when it has
    loaded [d]. *)
Definition tracked (isCorrect : bool) (day : Z) (d : AnalyticsData) : AnalyticsData :=
  mkAnalytics (totalSigns d + 1)
              (if isCorrect then correctSigns d + 1 else correctSigns d)
              (practiceTime d)
              (<[day := default 0 (dailyProgress d !! day) + 1]> (dailyProgress d))
              (sessionStart d).

(** The world after [onCorrectDetection] ran both engines. *)
Definition scored (w : World) : World :=
  let g := gained 10 (loadGame w) in
  set_analytics (Stored (tracked true (today w) (loadAnalytics w)))
    (set_hud (hudOf g) (set_game (Stored g) w)).



(** The modes are switched to one after the other. *)
Definition switches (modes : list string) (sh : Shell) : Shell :=
  foldl (λ sh mode, (ModeSwitcher.switchMode mode sh).2) sh modes.

(** The switches that leave sign mode or stay out of it. *)
Definition away (modes : list string) : nat :=
  length (List.filter (λ mode, negb (String.eqb mode "sign")) modes).



(** The world with other progress elements, or without them. *)
Definition put_hud (h : option Hud) (w : World) : World :=
  set_page (mkPage (detectionLabel (page w)) (transcriptList (page w)) h
                   (progressChart (page w))) w.

(** The world after [addToTranscript s pct], with or without the list. *)
Definition listed (s : string) (pct : Z) (w : World) : World :=
  match transcriptList (page w) with
  | Some children => noted s pct children w
  | None => w
  end.

(** The world after both engines wrote what they wrote. *)
Definition engines (g : item GameData) (h : option Hud) (a : item AnalyticsData)
           (w : World) : World :=
  set_analytics a (put_hud h (set_game g w)).

(** What the detection label shows after a poll answered with [data]. *)
Definition labelFor (data : Sample) : LabelView :=
  match ModeSwitcher.shown data with
  | Some (s, c) => mkLabel (Some s) (Math_round (c * 100)) true
  | None => mkLabel None 0 false
  end.

(** A request that saves a detection at 80% or more. *)
Definition confident (r : Request) : Prop :=
  ∃ s pct, r = SaveDetection s (inject_Z pct / 100)%Q ∧ 80 ≤ pct.

(** The calls of [fetchLatestDetection], oldest first: the clock and the
    answer of each. *)
Definition feedAll (calls : list (Z * option Sample)) (f : Feed) : Feed :=
  foldl (λ f call, (Latest.fetchLatestDetection call.1 call.2 f).2) f calls.

(** Two saves in a row are of different signs or more than five seconds
    apart (the list is newest first). *)
Fixpoint spaced (saves : list (Z * string * option Q)) : Prop :=
  match saves with
  | (t2, s2, _) :: ((t1, s1, _) :: _) as older =>
      (s2 ≠ s1 ∨ 5000 < t2 - t1) ∧ spaced older
  | _ => True
  end.

(** The remembered save is the newest one sent. *)
Definition remembered (f : Feed) : Prop :=
  match saved_detections f with
  | (t, s, _) :: _ => lastSavedSign f = Some s ∧ lastSavedTime f = t
  | [] => True
  end.

(** The dashboard as the script finds it: nothing saved yet. *)
Definition freshFeed : Feed := mkFeed None 0 (Some None) [] 0.

(** * Running handlers *)

Lemma bind_run {A B : Type} (m : JS A) (k : A → JS B) (w : World) :
  (m ≫= k) w = match m w with
               | (Normal a, w') => k a w'
               | (Throw e, w') => (Throw e, w')
               end.
Proof. reflexivity. Qed.

(** Runs the monad's own operations and simplifies. *)
Ltac js :=
  repeat first
    [ rewrite bind_run
    | progress unfold reads, writes, throw, when, Date_now, toDateString
    | progress cbn ].

(** Unfolds the monad's operations and leaves the scripts' functions folded. *)
Ltac unfold_monad :=
  cbv beta iota zeta delta
    [mbind JS_bind mret JS_ret reads writes throw when try_catch Date_now
     ModeSwitcher.fetch_latest ModeSwitcher.set_label].

Lemma day_before (w : World) :
  (clock w - 86400000 + zone w) `div` msPerDay = today w - 1.
Proof.
  unfold today, msPerDay.
  replace (clock w - 86400000 + zone w) with (clock w + zone w + (-1) * 86400000) by lia.
  rewrite Z.div_add by lia. lia.
Qed.

Lemma day_back (w : World) (i : Z) :
  (clock w - i * 86400000 + zone w) `div` msPerDay = today w - i.
Proof.
  unfold today, msPerDay.
  replace (clock w - i * 86400000 + zone w) with (clock w + zone w + (- i) * 86400000) by lia.
  rewrite Z.div_add by lia. lia.
Qed.

Lemma game_getData_readable (w : World) :
  readable (game_item w) = true → Gamification.getData w = (Normal (loadGame w), w).
Proof.
  unfold Gamification.getData, loadGame. rewrite bind_run. cbn.
  destruct (game_item w); cbn; intros H; try discriminate; reflexivity.
Qed.

Lemma game_getData_corrupt (w : World) :
  game_item w = Corrupt → Gamification.getData w = (Throw SyntaxError, w).
Proof. unfold Gamification.getData. rewrite bind_run. cbn. intros ->. reflexivity. Qed.

Lemma game_updateUI_run (w : World) :
  readable (game_item w) = true →
  Gamification.updateUI w = match hud (page w) with
               | Some _ => (Normal tt, set_hud (hudOf (loadGame w)) w)
               | None => (Throw TypeError, w)
               end.
Proof.
  intros H. unfold Gamification.updateUI. rewrite bind_run, game_getData_readable by done.
  js. destruct (hud (page w)); reflexivity.
Qed.

Lemma game_addXP_run (amount : Z) (w : World) :
  readable (game_item w) = true →
  Gamification.addXP amount w =
    let w' := set_game (Stored (gained amount (loadGame w))) w in
    match hud (page w) with
    | Some _ => (Normal tt, set_hud (hudOf (gained amount (loadGame w))) w')
    | None => (Throw TypeError, w')
    end.
Proof.
  intros H. unfold Gamification.addXP. rewrite bind_run, game_getData_readable by done.
  unfold gained. js.
  destruct (level (loadGame w) <? Gamification.getLevel (xp (loadGame w) + amount)); js;
    rewrite game_updateUI_run by done; cbn; destruct (hud (page w)); reflexivity.
Qed.

Lemma game_updateStreak_run (w : World) :
  readable (game_item w) = true →
  Gamification.updateStreak w =
    let w' := set_game (Stored (visited (today w) (loadGame w))) w in
    match hud (page w) with
    | Some _ => (Normal tt, set_hud (hudOf (visited (today w) (loadGame w))) w')
    | None => (Throw TypeError, w')
    end.
Proof.
  intros H. unfold Gamification.updateStreak. rewrite bind_run, game_getData_readable by done.
  js. rewrite day_before. fold (today w). unfold visited.
  rewrite game_updateUI_run by done. cbn.
  destruct (lastVisit (loadGame w) =? today w - 1); cbn;
    [| destruct (lastVisit (loadGame w) =? today w); cbn];
    destruct (hud (page w)); reflexivity.
Qed.

Lemma game_getData_normal (w : World) (d : GameData) :
  outcome Gamification.getData w = Normal d →
  readable (game_item w) = true ∧ loadGame w = d.
Proof.
  unfold outcome. destruct (game_item w) eqn:E.
  1,2,4: rewrite game_getData_readable by (rewrite E; done); cbn; intros [= <-]; done.
  rewrite game_getData_corrupt by done. discriminate.
Qed.

Lemma gained_level_ok (amount : Z) (d : GameData) :
  level_ok d → 0 < amount → level_ok (gained amount d).
Proof.
  unfold level_ok, gained, Gamification.getLevel. cbn. intros Hd Hpos.
  destruct (Z.ltb_spec (level d) ((xp d + amount) `div` 100 + 1)) as [Hlt | Hge].
  - reflexivity.
  - assert (xp d `div` 100 ≤ (xp d + amount) `div` 100)
      by (apply Z.div_le_mono; lia).
    lia.
Qed.

(** C2.  Take a stored state whose level is [floor (xp / 100) + 1] and a
    positive amount.  After [addXP amount] the saved state has the amount
    added and its level is again [getLevel] of its experience; after
    [updateStreak] the experience is unchanged and the level is still
    [getLevel] of it. *)
Theorem level_follows_experience (w : World) (d : GameData) (amount : Z) :
  outcome Gamification.getData w = Normal d →
  level_ok d →
  0 < amount →
  (∃ d1, outcome Gamification.getData (exec (Gamification.addXP amount) w) = Normal d1
         ∧ xp d1 = xp d + amount
         ∧ level d1 = Gamification.getLevel (xp d1))
  ∧ (∃ d2, outcome Gamification.getData (exec Gamification.updateStreak w) = Normal d2
           ∧ xp d2 = xp d
           ∧ level d2 = Gamification.getLevel (xp d2)).
Proof.
  intros Hload Hok Hpos.
  destruct (game_getData_normal w d Hload) as [Hr <-].
  split.
  - exists (gained amount (loadGame w)).
    unfold exec, outcome. rewrite game_addXP_run by done. cbn.
    split; [| split].
    + destruct (hud (page w)); cbn; by rewrite game_getData_readable.
    + reflexivity.
    + apply (gained_level_ok amount (loadGame w)); done.
  - exists (visited (today w) (loadGame w)).
    unfold exec, outcome. rewrite game_updateStreak_run by done. cbn.
    split; [| split].
    + destruct (hud (page w)); cbn; by rewrite game_getData_readable.
    + reflexivity.
    + exact Hok.
Qed.

(** The theorem at a first visit, for 250 points. *)
Lemma level_follows_experience_witness :
  (∃ d1, outcome Gamification.getData (exec (Gamification.addXP 250) (firstVisit 0)) = Normal d1
         ∧ xp d1 = 0 + 250
         ∧ level d1 = Gamification.getLevel (xp d1))
  ∧ (∃ d2, outcome Gamification.getData (exec Gamification.updateStreak (firstVisit 0))
           = Normal d2
           ∧ xp d2 = 0
           ∧ level d2 = Gamification.getLevel (xp d2)).
Proof.
  apply (level_follows_experience (firstVisit 0) (mkGame 0 1 0 0) 250).
  - reflexivity.
  - reflexivity.
  - lia.
Defined.

Lemma visited_same (day : Z) (d : GameData) :
  lastVisit d = day → streak (visited day d) = streak d.
Proof.
  intros E. unfold visited. cbn. rewrite E.
  destruct (Z.eqb_spec day (day - 1)); [lia |]. by rewrite Z.eqb_refl.
Qed.




Lemma updateStreak_saves (w : World) :
  readable (game_item w) = true →
  game_item (exec Gamification.updateStreak w) = Stored (visited (today w) (loadGame w))
  ∧ zone (exec Gamification.updateStreak w) = zone w.
Proof.
  intros Hr. unfold exec. rewrite game_updateStreak_run by done.
  by destruct (hud (page w)).
Qed.



(** C6 asks for a streak of 1 after the first run.  With no record stored
    [getData] dates the defaults today, so [updateStreak] takes neither
    branch and saves the streak 0. *)
Theorem first_run_streak (w : World) :
  ∃ d, game_item (exec Gamification.updateStreak (set_game Absent w)) = Stored d
       ∧ streak d = 0
       ∧ lastVisit d = today w.
Proof.
  destruct (updateStreak_saves (set_game Absent w) eq_refl) as [Hg _].
  eexists. split; [exact Hg |]. split.
  - apply visited_same. reflexivity.
  - reflexivity.
Qed.

(** * The progress bar *)

Lemma clamp_scale (q : Q) :
  (Qmin (Qmax (q * 100) 0) 100 == 100 * Qmin (Qmax q 0) 1)%Q.
Proof.
  destruct (Q.max_spec (q * 100) 0) as [[H1 E1] | [H1 E1]];
    destruct (Q.max_spec q 0) as [[H2 E2] | [H2 E2]];
    rewrite E1, E2; try lra.
  - destruct (Q.min_spec 0 100) as [[H3 E3] | [H3 E3]];
      destruct (Q.min_spec 0 1) as [[H4 E4] | [H4 E4]];
      rewrite E3, E4; lra.
  - destruct (Q.min_spec (q * 100) 100) as [[H3 E3] | [H3 E3]];
      destruct (Q.min_spec q 1) as [[H4 E4] | [H4 E4]];
      rewrite E3, E4; lra.
Qed.

Lemma getProgress_formula (x l : Z) :
  (Gamification.getProgress x l
   == 100 * Qmin (Qmax ((inject_Z x - (inject_Z l - 1) * 100) / 100) 0) 1)%Q.
Proof.
  unfold Gamification.getProgress.
  replace (l * 100 - (l - 1) * 100) with 100 by lia.
  rewrite <- clamp_scale.
  assert (E : (inject_Z (x - (l - 1) * 100) / inject_Z 100 * 100
               == (inject_Z x - (inject_Z l - 1) * 100) / 100 * 100)%Q).
  { unfold Z.sub. rewrite !inject_Z_plus, !inject_Z_opp, !inject_Z_mult, !inject_Z_plus.
    rewrite inject_Z_opp. change (inject_Z 100) with 100%Q. change (inject_Z 1) with 1%Q.
    field. }
  by rewrite E.
Qed.

Lemma getProgress_range (x l : Z) :
  (0 <= Gamification.getProgress x l <= 100)%Q.
Proof.
  unfold Gamification.getProgress. split.
  - apply Q.min_glb; [apply Q.le_max_r | lra].
  - apply Q.le_min_r.
Qed.

(** * The analytics record *)

Lemma stats_getData_readable (w : World) :
  readable (analytics_item w) = true →
  Analytics.getData w = (Normal (loadAnalytics w), w).
Proof.
  unfold Analytics.getData, loadAnalytics. rewrite bind_run. cbn.
  destruct (analytics_item w); cbn; intros H; try discriminate; reflexivity.
Qed.

Lemma stats_getData_corrupt (w : World) :
  analytics_item w = Corrupt → Analytics.getData w = (Throw SyntaxError, w).
Proof. unfold Analytics.getData. rewrite bind_run. cbn. intros ->. reflexivity. Qed.

Lemma stats_getData_normal (w : World) (d : AnalyticsData) :
  outcome Analytics.getData w = Normal d →
  readable (analytics_item w) = true ∧ loadAnalytics w = d.
Proof.
  unfold outcome. destruct (analytics_item w) eqn:E.
  1,2,4: rewrite stats_getData_readable by (rewrite E; done); cbn; intros [= <-]; done.
  rewrite stats_getData_corrupt by done. discriminate.
Qed.

Lemma stats_getAccuracy_run (w : World) :
  readable (analytics_item w) = true →
  Analytics.getAccuracy w = (Normal (accuracyOf (loadAnalytics w)), w).
Proof.
  intros H. unfold Analytics.getAccuracy, accuracyOf.
  rewrite bind_run, stats_getData_readable by done.
  destruct (totalSigns (loadAnalytics w) =? 0); reflexivity.
Qed.

Lemma offsets_S (n : nat) : offsets (S n) = Z.of_nat n :: offsets n.
Proof. unfold offsets. rewrite seq_S, rev_app_distr. reflexivity. Qed.

Lemma last7_loop (d : AnalyticsData) (n : nat) (days : list Z) (labels : list string)
      (w : World) :
  for_down n (λ i '(days, labels),
      now ← Date_now;
      let date := now - i * 86400000 in
      dateStr ← toDateString date;
      let count := default 0 (dailyProgress d !! dateStr) in
      label ← weekdayShort date;
      mret (days ++ [count], labels ++ [label])) (days, labels) w
  = (Normal (days ++ ((λ i, countOn d (today w - i)) <$> offsets n),
             labels ++ ((λ i, weekdayName (today w - i)) <$> offsets n)), w).
Proof.
  revert days labels. induction n as [| n IH]; intros days labels.
  - cbn. by rewrite !app_nil_r.
  - rewrite offsets_S. cbn [for_down]. rewrite bind_run.
    unfold weekdayShort. js. rewrite day_back. rewrite IH.
    rewrite <- !app_assoc. reflexivity.
Qed.

Lemma stats_getLast7Days_run (w : World) :
  readable (analytics_item w) = true →
  Analytics.getLast7Days w
  = (Normal ((λ i, countOn (loadAnalytics w) (today w - i)) <$> offsets 7,
             (λ i, weekdayName (today w - i)) <$> offsets 7), w).
Proof.
  intros H. unfold Analytics.getLast7Days.
  rewrite bind_run, stats_getData_readable by done.
  apply (last7_loop (loadAnalytics w) 7 [] [] w).
Qed.

Lemma stats_updateUI_run (w : World) :
  readable (analytics_item w) = true → Analytics.updateUI w = (Normal tt, w).
Proof.
  intros H. unfold Analytics.updateUI, Analytics.drawChart.
  rewrite bind_run, stats_getData_readable by done.
  rewrite bind_run, stats_getAccuracy_run by done.
  js. destruct (progressChart (page w)); [| reflexivity].
  rewrite bind_run, stats_getLast7Days_run by done. reflexivity.
Qed.

Lemma daily_bump (daily : gmap Z Z) (day : Z) :
  <[day := default 0
             ((if Analytics.falsy (daily !! day) then <[day := 0]> daily else daily)
                !! day) + 1]>
    (if Analytics.falsy (daily !! day) then <[day := 0]> daily else daily)
  = <[day := default 0 (daily !! day) + 1]> daily.
Proof.
  destruct (daily !! day) as [c |] eqn:E; cbn.
  - destruct (Z.eqb_spec c 0) as [-> | Hc].
    + by rewrite lookup_insert_eq, insert_insert_eq.
    + by rewrite E.
  - by rewrite lookup_insert_eq, insert_insert_eq.
Qed.

Lemma stats_trackSign_run (isCorrect : bool) (w : World) :
  readable (analytics_item w) = true →
  Analytics.trackSign isCorrect w
  = (Normal tt, set_analytics (Stored (tracked isCorrect (today w) (loadAnalytics w))) w).
Proof.
  intros H. unfold Analytics.trackSign.
  rewrite bind_run, stats_getData_readable by done.
  js. fold (today w).
  rewrite (daily_bump (dailyProgress (loadAnalytics w)) (today w)).
  rewrite stats_updateUI_run by done. reflexivity.
Qed.

Lemma stats_updatePracticeTime_run (w : World) :
  readable (analytics_item w) = true →
  Analytics.updatePracticeTime w
  = (let d := loadAnalytics w in
     (Normal tt,
      set_analytics
        (Stored (mkAnalytics (totalSigns d) (correctSigns d)
                   (practiceTime d + (clock w - sessionStart d) `div` 1000)
                   (dailyProgress d) (clock w))) w)).
Proof.
  intros H. unfold Analytics.updatePracticeTime.
  rewrite bind_run, stats_getData_readable by done. reflexivity.
Qed.

(** C4, as the code has it.  [getProgress] is a function of its two
    arguments alone; it is one hundred times the share of the level that
    is filled, a percentage between 0 and 100.  With nothing stored,
    [addXP 250] saves 250 points at level 3, where the bar stands at 50. *)
Theorem getProgress_is_a_percentage (x l : Z) (w : World) :
  (Gamification.getProgress x l
   == 100 * Qmin (Qmax ((inject_Z x - (inject_Z l - 1) * 100) / 100) 0) 1)%Q
  ∧ (0 <= Gamification.getProgress x l <= 100)%Q
  ∧ ∃ d, game_item (exec (Gamification.addXP 250) (set_game Absent w)) = Stored d
         ∧ xp d = 250
         ∧ level d = 3
         ∧ (Gamification.getProgress (xp d) (level d) == 50)%Q.
Proof.
  split; [apply getProgress_formula |].
  split; [apply getProgress_range |].
  exists (gained 250 (loadGame (set_game Absent w))).
  unfold exec. rewrite game_addXP_run by done.
  split; [by destruct (hud (page (set_game Absent w))) |].
  done.
Qed.

(** C4 as stated does not hold: at 250 points and level 3 [getProgress]
    answers 50, which is neither 0.5 nor within [0,1]. *)
Lemma getProgress_is_not_a_fraction :
  ∃ d, game_item (exec (Gamification.addXP 250) (firstVisit 0)) = Stored d
       ∧ xp d = 250
       ∧ level d = 3
       ∧ ¬ (Gamification.getProgress (xp d) (level d) == 1 # 2)%Q
       ∧ ¬ (Gamification.getProgress (xp d) (level d) <= 1)%Q.
Proof.
  eexists. split; [reflexivity |]. split; [reflexivity |]. split; [reflexivity |].
  split; intros H; vm_compute in H; [discriminate | apply H; reflexivity].
Qed.

(** C3, as the code has it.  A missing record and an empty stored text
    make [getData] of both engines answer the defaults.  A stored text
    that [JSON.parse] rejects is not taken for a missing one: [getData]
    throws, and so does every operation of the engine that loads the
    record, leaving the world as it was. *)
Theorem corrupt_record_throws (w : World) (amount : Z) (isCorrect : bool) :
  let wg := set_game Corrupt w in
  let wa := set_analytics Corrupt w in
  (outcome Gamification.getData (set_game Absent w) = Normal (mkGame 0 1 0 (today w))
   ∧ outcome Gamification.getData (set_game EmptyText w) = Normal (mkGame 0 1 0 (today w))
   ∧ outcome Analytics.getData (set_analytics Absent w)
     = Normal (mkAnalytics 0 0 0 ∅ (clock w))
   ∧ outcome Analytics.getData (set_analytics EmptyText w)
     = Normal (mkAnalytics 0 0 0 ∅ (clock w)))
  ∧ (Gamification.getData wg = (Throw SyntaxError, wg)
     ∧ Gamification.addXP amount wg = (Throw SyntaxError, wg)
     ∧ Gamification.updateStreak wg = (Throw SyntaxError, wg)
     ∧ Gamification.updateUI wg = (Throw SyntaxError, wg)
     ∧ Gamification.syncToServer wg = (Throw SyntaxError, wg)
     ∧ Gamification.init wg = (Throw SyntaxError, wg))
  ∧ (Analytics.getData wa = (Throw SyntaxError, wa)
     ∧ Analytics.trackSign isCorrect wa = (Throw SyntaxError, wa)
     ∧ Analytics.getAccuracy wa = (Throw SyntaxError, wa)
     ∧ Analytics.getLast7Days wa = (Throw SyntaxError, wa)
     ∧ Analytics.updatePracticeTime wa = (Throw SyntaxError, wa)
     ∧ Analytics.updateUI wa = (Throw SyntaxError, wa)
     ∧ Analytics.init wa = (Throw SyntaxError, wa)).
Proof.
  intros wg wa. split; [| split].
  - repeat split; reflexivity.
  - assert (Hg : Gamification.getData wg = (Throw SyntaxError, wg))
      by (by apply game_getData_corrupt).
    repeat split; try exact Hg;
      unfold Gamification.init, Gamification.addXP, Gamification.updateStreak,
        Gamification.updateUI, Gamification.syncToServer;
      rewrite !bind_run, Hg; reflexivity.
  - assert (Ha : Analytics.getData wa = (Throw SyntaxError, wa))
      by (by apply stats_getData_corrupt).
    repeat split; try exact Ha;
      unfold Analytics.init, Analytics.trackSign, Analytics.getAccuracy,
        Analytics.getLast7Days, Analytics.updatePracticeTime, Analytics.updateUI;
      rewrite !bind_run, Ha; reflexivity.
Qed.

(** C3 as stated does not hold: with corrupt records both [getData] throw
    where a first visit gets the defaults. *)
Lemma corrupt_record_is_not_absent :
  let w := set_analytics Corrupt (set_game Corrupt (firstVisit 0)) in
  outcome Gamification.getData w = Throw SyntaxError
  ∧ outcome Analytics.getData w = Throw SyntaxError
  ∧ outcome Gamification.getData w ≠ outcome Gamification.getData (firstVisit 0)
  ∧ outcome Analytics.getData w ≠ outcome Analytics.getData (firstVisit 0).
Proof. repeat split; try reflexivity; discriminate. Qed.

(** * Accuracy *)




Lemma loadAnalytics_stored (d : AnalyticsData) (w : World) :
  loadAnalytics (set_analytics (Stored d) w) = d.
Proof. reflexivity. Qed.

Lemma trackAll_cons (t : Z) (b : bool) (calls : list (Z * bool)) (w : World) :
  trackAll ((t, b) :: calls) w
  = trackAll calls (exec (Analytics.trackSign b) (set_clock t w)).
Proof. reflexivity. Qed.

Lemma trackAll_counts (calls : list (Z * bool)) (w : World) :
  readable (analytics_item w) = true →
  readable (analytics_item (trackAll calls w)) = true
  ∧ totalSigns (loadAnalytics (trackAll calls w))
    = totalSigns (loadAnalytics w) + Z.of_nat (length calls)
  ∧ correctSigns (loadAnalytics (trackAll calls w))
    = correctSigns (loadAnalytics w)
      + Z.of_nat (length (List.filter snd calls)).
Proof.
  revert w. induction calls as [| [t b] calls IH]; intros w Hr.
  - cbn. split; [done | lia].
  - rewrite trackAll_cons.
    set (w1 := exec (Analytics.trackSign b) (set_clock t w)).
    assert (E : w1 = set_analytics
                  (Stored (tracked b (today (set_clock t w)) (loadAnalytics (set_clock t w))))
                  (set_clock t w)).
    { subst w1. unfold exec. by rewrite stats_trackSign_run. }
    destruct (IH w1) as (Hr1 & Ht & Hc); [by rewrite E |].
    split; [done |]. rewrite Ht, Hc, E.
    assert (Et : totalSigns (loadAnalytics (set_clock t w)) = totalSigns (loadAnalytics w))
      by (unfold loadAnalytics; cbn; by destruct (analytics_item w)).
    assert (Ec : correctSigns (loadAnalytics (set_clock t w)) = correctSigns (loadAnalytics w))
      by (unfold loadAnalytics; cbn; by destruct (analytics_item w)).
    rewrite loadAnalytics_stored. cbn [tracked totalSigns correctSigns].
    rewrite Et, Ec. destruct b; cbn [List.filter snd length]; lia.
Qed.



(** * The last seven days *)




(** * One poll *)

Lemma addToTranscript_run (s : string) (pct : Z) (children : list Node) (w : World) :
  transcriptList (page w) = Some children →
  ModeSwitcher.addToTranscript s pct w = (Normal tt, noted s pct children w).
Proof.
  intros H. unfold ModeSwitcher.addToTranscript. rewrite bind_run.
  unfold reads. cbn beta iota. rewrite H. reflexivity.
Qed.

Lemma onCorrectDetection_run (w : World) :
  window_Gamification w = true →
  window_Analytics w = true →
  readable (game_item w) = true →
  readable (analytics_item w) = true →
  is_Some (hud (page w)) →
  ModeSwitcher.onCorrectDetection w = (Normal tt, scored w).
Proof.
  intros Hg Ha Hrg Hra [h Hh]. unfold ModeSwitcher.onCorrectDetection.
  rewrite bind_run. unfold reads at 1. cbn beta iota. rewrite Hg.
  rewrite bind_run. unfold when at 1. rewrite game_addXP_run by done.
  rewrite Hh. cbn beta iota zeta.
  rewrite bind_run. unfold reads at 1. cbn beta iota.
  replace (window_Analytics _) with true by done.
  unfold when. rewrite stats_trackSign_run by done. reflexivity.
Qed.

Lemma ready_parts (w : World) :
  ready w = true →
  is_Some (detectionLabel (page w))
  ∧ is_Some (transcriptList (page w))
  ∧ is_Some (hud (page w))
  ∧ window_Gamification w = true
  ∧ window_Analytics w = true
  ∧ readable (game_item w) = true
  ∧ readable (analytics_item w) = true
  ∧ is_Some (transcriptSigns (switcher w)).
Proof.
  unfold ready. rewrite !andb_true_iff, !bool_decide_eq_true. tauto.
Qed.

Lemma ready_intro (w : World) :
  is_Some (detectionLabel (page w)) →
  is_Some (transcriptList (page w)) →
  is_Some (hud (page w)) →
  window_Gamification w = true →
  window_Analytics w = true →
  readable (game_item w) = true →
  readable (analytics_item w) = true →
  is_Some (transcriptSigns (switcher w)) →
  ready w = true.
Proof.
  intros. unfold ready. rewrite !andb_true_iff, !bool_decide_eq_true. tauto.
Qed.


(** The poll went unanswered. *)
Lemma pollTick_failed (w : World) :
  ModeSwitcher.pollTick None w = (Normal tt, w).
Proof. reflexivity. Qed.

(** The answer shows no sign. *)
Lemma pollTick_nothing (data : Sample) (w : World) :
  is_Some (detectionLabel (page w)) →
  ModeSwitcher.shown data = None →
  ModeSwitcher.pollTick (Some data) w = (Normal tt, labelled (mkLabel None 0 false) w).
Proof.
  intros [v Hv] Hs. unfold ModeSwitcher.pollTick. unfold_monad.
  rewrite Hv, Hs. reflexivity.
Qed.

(** The answer shows a sign that is not accepted. *)
Lemma pollTick_skip (data : Sample) (s : string) (c : Q) (w : World) :
  is_Some (detectionLabel (page w)) →
  is_Some (transcriptSigns (switcher w)) →
  ModeSwitcher.shown data = Some (s, c) →
  (80 <=? Math_round (c * 100)) && negb (bool_decide (s ∈ accepted w)) = false →
  ModeSwitcher.pollTick (Some data) w
  = (Normal tt, labelled (mkLabel (Some s) (Math_round (c * 100)) true) w).
Proof.
  intros [v Hv] [signs Hsigns] Hs Hgate.
  assert (Eacc : accepted w = signs) by (unfold accepted; by rewrite Hsigns).
  rewrite Eacc in Hgate.
  unfold ModeSwitcher.pollTick. unfold_monad.
  rewrite Hv, Hs. cbn [switcher set_page]. rewrite Hsigns, Hgate. reflexivity.
Qed.

(** The answer shows a sign that is accepted. *)
Lemma pollTick_commit (data : Sample) (s : string) (c : Q) (w : World) :
  ready w = true →
  ModeSwitcher.shown data = Some (s, c) →
  (80 <=? Math_round (c * 100)) && negb (bool_decide (s ∈ accepted w)) = true →
  ModeSwitcher.pollTick (Some data) w
  = (Normal tt,
     set_switcher
       (mkSwitcher (detectionInterval (switcher w)) (Some s) (clock w)
                   (Some ({[s]} ∪ accepted w)))
       (scored (noted s (Math_round (c * 100)) (transcript w)
                  (labelled (mkLabel (Some s) (Math_round (c * 100)) true) w)))).
Proof.
  intros Hready Hs Hgate.
  destruct (ready_parts w Hready)
    as ([v Hv] & [children Hc] & Hhud & Hg & Ha & Hrg & Hra & [signs Hsigns]).
  assert (Eacc : accepted w = signs) by (unfold accepted; by rewrite Hsigns).
  assert (Etr : transcript w = children) by (unfold transcript; by rewrite Hc).
  rewrite Eacc in Hgate |- *. rewrite Etr.
  set (pct := Math_round (c * 100)) in *.
  set (w1 := labelled (mkLabel (Some s) pct true) w).
  unfold ModeSwitcher.pollTick. unfold_monad.
  rewrite Hv, Hs. fold pct. cbn [switcher set_page]. rewrite Hsigns, Hgate.
  change (set_page _ w) with w1.
  rewrite (addToTranscript_run s pct children w1) by done.
  rewrite onCorrectDetection_run by done.
  cbn [switcher scored set_analytics set_hud set_page set_game noted set_posted
       labelled detectionInterval transcriptSigns w1].
  rewrite Hsigns. reflexivity.
Qed.

(** * What a poll changes *)

Lemma round_threshold (c : Q) :
  80 ≤ Math_round (c * 100) ↔ (159 # 200 <= c)%Q.
Proof.
  unfold Math_round. split.
  - intros H.
    assert (H1 : (inject_Z 80 <= inject_Z (Qfloor (c * 100 + (1 # 2))))%Q)
      by (rewrite <- Zle_Qle; lia).
    pose proof (Qfloor_le (c * 100 + (1 # 2))) as H2.
    change (inject_Z 80) with 80%Q in H1. lra.
  - intros H. change 80 with (Qfloor 80). apply Qfloor_resp_le. lra.
Qed.

Lemma shown_sample (s : string) (c : Q) :
  s ≠ "" → (75 # 100 <= c)%Q →
  ModeSwitcher.shown {| sign := Some s; conf := Some c |} = Some (s, c).
Proof.
  intros Hs Hc. unfold ModeSwitcher.shown. cbn.
  apply String.eqb_neq in Hs. rewrite Hs.
  apply Qle_bool_iff in Hc. by rewrite Hc.
Qed.

Lemma shown_low (s : string) (c : Q) :
  ¬ (75 # 100 <= c)%Q →
  ModeSwitcher.shown {| sign := Some s; conf := Some c |} = None.
Proof.
  intros Hc. unfold ModeSwitcher.shown. cbn.
  destruct (Qle_bool (75 # 100) c) eqn:E.
  - apply Qle_bool_iff in E. done.
  - by rewrite andb_false_r.
Qed.


Lemma ready_labelled (v : LabelView) (w : World) :
  ready w = true → ready (labelled v w) = true.
Proof.
  intros H. destruct (ready_parts w H) as (? & ? & ? & ? & ? & ? & ? & ?).
  by apply ready_intro.
Qed.

Lemma ready_set_clock (t : Z) (w : World) :
  ready (set_clock t w) = ready w.
Proof. reflexivity. Qed.

Lemma only_shown_labelled (v : LabelView) (w : World) :
  only_shown w (labelled v w).
Proof. by repeat split. Qed.

Lemma same_game_same_xp (w w' : World) :
  game_item w' = game_item w → xp (loadGame w') = xp (loadGame w).
Proof. unfold loadGame. intros ->. by destruct (game_item w). Qed.

(** The world a commit leaves behind. *)
Lemma commit_effects (data : Sample) (s : string) (c : Q) (w : World) :
  ready w = true →
  ModeSwitcher.shown data = Some (s, c) →
  (80 <=? Math_round (c * 100)) && negb (bool_decide (s ∈ accepted w)) = true →
  let pct := Math_round (c * 100) in
  let w' := exec (ModeSwitcher.pollTick (Some data)) w in
  ready w' = true
  ∧ clock w' = clock w
  ∧ zone w' = zone w
  ∧ posted w' = SaveDetection s (inject_Z pct / 100)%Q :: posted w
  ∧ transcript w' = entered (Entry s pct (clock w)) (transcript w)
  ∧ accepted w' = {[s]} ∪ accepted w
  ∧ game_item w' = Stored (gained 10 (loadGame w))
  ∧ analytics_item w' = Stored (tracked true (today w) (loadAnalytics w)).
Proof.
  intros Hready Hs Hgate pct w'. subst w'. unfold exec.
  rewrite (pollTick_commit data s c w) by done. fold pct.
  destruct (ready_parts w Hready) as (? & ? & ? & ? & ? & ? & ? & ?).
  split; [by apply ready_intro |].
  by repeat split.
Qed.


(** The world a poll leaves behind when it commits nothing. *)
Lemma quiet_effects (r : option Sample) (w : World) :
  ready w = true →
  (∀ data s c, r = Some data → ModeSwitcher.shown data = Some (s, c) →
     (80 <=? Math_round (c * 100)) && negb (bool_decide (s ∈ accepted w)) = false) →
  let w' := exec (ModeSwitcher.pollTick r) w in
  ready w' = true ∧ clock w' = clock w ∧ zone w' = zone w ∧ only_shown w w'.
Proof.
  intros Hready Hgate w'. subst w'. unfold exec.
  destruct (ready_parts w Hready) as (Hl & _ & _ & _ & _ & _ & _ & Hsig).
  destruct r as [data |]; [| by rewrite pollTick_failed].
  destruct (ModeSwitcher.shown data) as [[s c] |] eqn:Hs.
  - rewrite (pollTick_skip data s c w) by eauto.
    split; [by apply ready_labelled |]. by repeat split.
  - rewrite pollTick_nothing by done.
    split; [by apply ready_labelled |]. by repeat split.
Qed.





(** * Sessions of polls *)

Lemma run_cons (e : event) (es : list event) (w : World) :
  run (e :: es) w = run es (step e w).
Proof. reflexivity. Qed.

Lemma clearTranscript_run (w : World) :
  is_Some (transcriptList (page w)) →
  is_Some (transcriptSigns (switcher w)) →
  ModeSwitcher.clearTranscript w
  = (Normal tt,
     set_switcher
       (mkSwitcher (detectionInterval (switcher w)) (lastAddedSign (switcher w))
                   (lastAddedTime (switcher w)) (Some ∅))
       (set_page (mkPage (detectionLabel (page w)) (Some [Placeholder])
                         (hud (page w)) (progressChart (page w))) w)).
Proof.
  intros [children Hc] [signs Hs]. unfold ModeSwitcher.clearTranscript.
  unfold_monad. rewrite Hc. cbn [switcher set_page]. rewrite Hs. reflexivity.
Qed.

Lemma clear_effects (w : World) :
  ready w = true →
  let w' := step Clear w in
  ready w' = true
  ∧ posted w' = posted w
  ∧ transcript w' = [Placeholder]
  ∧ accepted w' = ∅
  ∧ game_item w' = game_item w
  ∧ analytics_item w' = analytics_item w.
Proof.
  intros Hready w'. subst w'. unfold step, exec.
  destruct (ready_parts w Hready) as (? & ? & ? & ? & ? & ? & ? & ?).
  rewrite clearTranscript_run by done.
  split; [by apply ready_intro |]. by repeat split.
Qed.

Lemma stop_effects (w : World) :
  ready (step Stop w) = ready w
  ∧ posted (step Stop w) = posted w
  ∧ accepted (step Stop w) = accepted w.
Proof.
  unfold step, exec, ModeSwitcher.stopSignDetection. unfold_monad.
  by destruct (detectionInterval (switcher w)).
Qed.






(** * What the poller does to the analytics record *)

Section Keeps.
Variable P : item AnalyticsData → Prop.
















End Keeps.







(** * More on the progression engine *)

Lemma progress_raw (x l : Z) :
  (inject_Z (x - (l - 1) * 100) / inject_Z (l * 100 - (l - 1) * 100) * 100
   == inject_Z (x - (l - 1) * 100))%Q.
Proof.
  replace (l * 100 - (l - 1) * 100) with 100 by lia.
  change (inject_Z 100) with 100%Q. field.
Qed.

Lemma getProgress_clamp (x l : Z) :
  (Gamification.getProgress x l
   == Qmin (Qmax (inject_Z (x - (l - 1) * 100)) 0) 100)%Q.
Proof. unfold Gamification.getProgress. cbv zeta. by rewrite progress_raw. Qed.


(** X2.  For a fixed level [getProgress] does not decrease when the
    experience grows; it is 0 up to the lower end of the level's band and
    100 from the upper end on. *)
Theorem getProgress_monotone (x y l : Z) :
  x ≤ y →
  (Gamification.getProgress x l <= Gamification.getProgress y l)%Q
  ∧ (x ≤ (l - 1) * 100 → (Gamification.getProgress x l == 0)%Q)
  ∧ (l * 100 ≤ y → (Gamification.getProgress y l == 100)%Q).
Proof.
  intros Hxy. rewrite !getProgress_clamp. split; [| split].
  - apply Q.min_le_compat_r, Q.max_le_compat_r.
    rewrite <- Zle_Qle. lia.
  - intros H.
    assert (H0 : (inject_Z (x - (l - 1) * 100) <= 0)%Q)
      by (change (inject_Z (x - (l - 1) * 100) <= inject_Z 0)%Q; rewrite <- Zle_Qle; lia).
    rewrite (Q.max_r _ _ H0). apply Q.min_l. lra.
  - intros H.
    assert (H0 : (100 <= inject_Z (y - (l - 1) * 100))%Q)
      by (change (inject_Z 100 <= inject_Z (y - (l - 1) * 100))%Q; rewrite <- Zle_Qle; lia).
    assert (H1 : (0 <= inject_Z (y - (l - 1) * 100))%Q) by lra.
    rewrite (Q.max_l _ _ H1). by apply Q.min_r.
Qed.

(** The theorem for 130 and 170 points at level 2. *)
Lemma getProgress_monotone_witness :
  (Gamification.getProgress 130 2 <= Gamification.getProgress 170 2)%Q.
Proof. apply (getProgress_monotone 130 170 2). lia. Defined.

Lemma addXP_saves (amount : Z) (w : World) :
  readable (game_item w) = true →
  game_item (exec (Gamification.addXP amount) w)
  = Stored (gained amount (loadGame w)).
Proof.
  intros Hr. unfold exec. rewrite game_addXP_run by done.
  by destruct (hud (page w)).
Qed.

(** X3.  Whenever the record can be read, [addXP amount] saves a record
    with the amount added, the level the larger of the old level and
    [getLevel] of the new experience, and the streak and last visit as they
    were.  The level is never lowered: after a loss of points that leaves
    [getLevel] below the stored level, the saved level no longer is
    [getLevel] of the experience. *)
Theorem addXP_never_lowers_the_level (w : World) (d : GameData) (amount : Z) :
  outcome Gamification.getData w = Normal d →
  ∃ d', game_item (exec (Gamification.addXP amount) w) = Stored d'
        ∧ xp d' = xp d + amount
        ∧ level d' = Z.max (level d) (Gamification.getLevel (xp d + amount))
        ∧ level d ≤ level d'
        ∧ streak d' = streak d
        ∧ lastVisit d' = lastVisit d
        ∧ (Gamification.getLevel (xp d + amount) < level d → ¬ level_ok d').
Proof.
  intros Hload. destruct (game_getData_normal w d Hload) as [Hr <-].
  exists (gained amount (loadGame w)).
  split; [by apply addXP_saves |].
  unfold gained, level_ok, Gamification.getLevel. cbn.
  destruct (Z.ltb_spec (level (loadGame w)) ((xp (loadGame w) + amount) `div` 100 + 1));
    repeat split; lia.
Qed.

(** The theorem for 250 points at level 3 and a loss of 200. *)
Lemma addXP_never_lowers_the_level_witness :
  ∃ d', game_item (exec (Gamification.addXP (-200))
                        (set_game (Stored (mkGame 250 3 1 0)) (firstVisit 0)))
        = Stored d'
        ∧ xp d' = 50
        ∧ level d' = 3.
Proof.
  destruct (addXP_never_lowers_the_level
              (set_game (Stored (mkGame 250 3 1 0)) (firstVisit 0))
              (mkGame 250 3 1 0) (-200) eq_refl)
    as (d' & Hg & Hx & Hl & _).
  exists d'. split; [exact Hg |]. split; [exact Hx | exact Hl].
Defined.

(** X4.  [addXP] and [updateStreak] save before they show.  With the
    progress elements on the page both end normally and the elements show
    the saved record; without them both throw a [TypeError], and the record
    has been saved all the same. *)
Theorem progress_is_saved_before_it_is_shown (w : World) (amount : Z) :
  readable (game_item w) = true →
  (is_Some (hud (page w)) →
   (outcome (Gamification.addXP amount) w = Normal tt
    ∧ hud (page (exec (Gamification.addXP amount) w))
      = Some (hudOf (loadGame (exec (Gamification.addXP amount) w))))
   ∧ (outcome Gamification.updateStreak w = Normal tt
      ∧ hud (page (exec Gamification.updateStreak w))
        = Some (hudOf (loadGame (exec Gamification.updateStreak w)))))
  ∧ (hud (page w) = None →
     (outcome (Gamification.addXP amount) w = Throw TypeError
      ∧ game_item (exec (Gamification.addXP amount) w)
        = Stored (gained amount (loadGame w)))
     ∧ (outcome Gamification.updateStreak w = Throw TypeError
        ∧ game_item (exec Gamification.updateStreak w)
          = Stored (visited (today w) (loadGame w)))).
Proof.
  intros Hr. unfold outcome, exec.
  rewrite game_addXP_run, game_updateStreak_run by done.
  split.
  - intros [h Hh]. rewrite Hh. by repeat split.
  - intros Hh. rewrite Hh. by repeat split.
Qed.

(** The theorem at a first visit, for 10 points. *)
Lemma progress_is_saved_before_it_is_shown_witness :
  outcome (Gamification.addXP 10) (firstVisit 0) = Normal tt
  ∧ hud (page (exec (Gamification.addXP 10) (firstVisit 0)))
    = Some (hudOf (loadGame (exec (Gamification.addXP 10) (firstVisit 0)))).
Proof.
  destruct (progress_is_saved_before_it_is_shown (firstVisit 0) 10 eq_refl) as [H _].
  destruct H as [H _]; [by eexists | exact H].
Defined.

(** * Visits on consecutive days *)






(** * More on the analytics engine *)

Lemma trackSign_saves (isCorrect : bool) (w : World) :
  readable (analytics_item w) = true →
  analytics_item (exec (Analytics.trackSign isCorrect) w)
  = Stored (tracked isCorrect (today w) (loadAnalytics w)).
Proof. intros Hr. unfold exec. by rewrite stats_trackSign_run. Qed.

(** X6.  Whenever the record can be read, [trackSign] saves a record with
    one more sign in total, one more correct sign exactly when the flag is
    set, one more sign counted for today, and the other days, the practice
    time and the session start as they were. *)
Theorem trackSign_counts_the_day (w : World) (d : AnalyticsData) (isCorrect : bool) :
  outcome Analytics.getData w = Normal d →
  ∃ d', analytics_item (exec (Analytics.trackSign isCorrect) w) = Stored d'
        ∧ totalSigns d' = totalSigns d + 1
        ∧ correctSigns d' = correctSigns d + (if isCorrect then 1 else 0)
        ∧ countOn d' (today w) = countOn d (today w) + 1
        ∧ (∀ day, day ≠ today w → dailyProgress d' !! day = dailyProgress d !! day)
        ∧ practiceTime d' = practiceTime d
        ∧ sessionStart d' = sessionStart d.
Proof.
  intros Hload. destruct (stats_getData_normal w d Hload) as [Hr <-].
  exists (tracked isCorrect (today w) (loadAnalytics w)).
  split; [by apply trackSign_saves |].
  unfold tracked, countOn. cbn.
  split; [done |]. split; [destruct isCorrect; lia |].
  split; [by rewrite lookup_insert_eq |].
  split; [| done].
  intros day Hne. by rewrite lookup_insert_ne.
Qed.

(** The theorem at a first visit, for a sign that is not correct. *)
Lemma trackSign_counts_the_day_witness :
  ∃ d', analytics_item (exec (Analytics.trackSign false) (firstVisit 0)) = Stored d'
        ∧ totalSigns d' = 1
        ∧ correctSigns d' = 0
        ∧ countOn d' 0 = 1.
Proof.
  destruct (trackSign_counts_the_day (firstVisit 0) (mkAnalytics 0 0 0 ∅ 0) false eq_refl)
    as (d' & Hs & Ht & Hc & Hd & _).
  exists d'. split; [exact Hs |]. split; [exact Ht |]. split; [exact Hc | exact Hd].
Defined.

Lemma trackAll_zone (calls : list (Z * bool)) (w : World) :
  readable (analytics_item w) = true → zone (trackAll calls w) = zone w.
Proof.
  revert w. induction calls as [| [t b] calls IH]; intros w Hr; [done |].
  rewrite trackAll_cons.
  assert (E : exec (Analytics.trackSign b) (set_clock t w)
              = set_analytics
                  (Stored (tracked b (today (set_clock t w)) (loadAnalytics (set_clock t w))))
                  (set_clock t w))
    by (unfold exec; by rewrite stats_trackSign_run).
  rewrite IH; by rewrite E.
Qed.

Lemma trackAll_days (calls : list (Z * bool)) (w : World) (day : Z) :
  readable (analytics_item w) = true →
  countOn (loadAnalytics (trackAll calls w)) day
  = countOn (loadAnalytics w) day
    + Z.of_nat (length (List.filter (λ c, (c.1 + zone w) `div` msPerDay =? day) calls)).
Proof.
  revert w. induction calls as [| [t b] calls IH]; intros w Hr.
  - cbn. lia.
  - rewrite trackAll_cons.
    set (w0 := set_clock t w).
    assert (E : exec (Analytics.trackSign b) w0
                = set_analytics (Stored (tracked b (today w0) (loadAnalytics w0))) w0)
      by (unfold exec; by rewrite stats_trackSign_run).
    rewrite E, IH by done. rewrite loadAnalytics_stored.
    assert (Ed : dailyProgress (loadAnalytics w0) = dailyProgress (loadAnalytics w))
      by (unfold loadAnalytics; cbn; by destruct (analytics_item w)).
    unfold countOn, tracked. cbn [dailyProgress List.filter fst zone set_analytics w0 set_clock].
    rewrite Ed. change (today w0) with ((t + zone w) `div` msPerDay).
    destruct (Z.eqb_spec ((t + zone w) `div` msPerDay) day) as [-> | Hne].
    + rewrite lookup_insert_eq. cbn [length default from_option id]. lia.
    + rewrite lookup_insert_ne by done. lia.
Qed.

(** X7.  After any calls of [trackSign], at any instants, the total has
    grown by the number of calls, the correct signs by the number of calls
    flagged correct, and the count of each day by the number of calls made
    on that day; a record with [0 <= correctSigns <= totalSigns] stays
    one. *)
Theorem tracked_signs_are_counted_by_day
        (w : World) (d : AnalyticsData) (calls : list (Z * bool)) (day : Z) :
  outcome Analytics.getData w = Normal d →
  ∃ d', outcome Analytics.getData (trackAll calls w) = Normal d'
        ∧ totalSigns d' = totalSigns d + Z.of_nat (length calls)
        ∧ correctSigns d' = correctSigns d + Z.of_nat (length (List.filter snd calls))
        ∧ countOn d' day
          = countOn d day
            + Z.of_nat (length (List.filter
                                  (λ c, (c.1 + zone w) `div` msPerDay =? day) calls))
        ∧ (0 ≤ correctSigns d ≤ totalSigns d → 0 ≤ correctSigns d' ≤ totalSigns d').
Proof.
  intros Hload. destruct (stats_getData_normal w d Hload) as [Hr <-].
  destruct (trackAll_counts calls w Hr) as (Hr' & Ht & Hc).
  exists (loadAnalytics (trackAll calls w)).
  split; [unfold outcome; by rewrite stats_getData_readable |].
  split; [exact Ht |]. split; [exact Hc |].
  split; [by apply trackAll_days |].
  intros H. rewrite Ht, Hc.
  pose proof (filter_length snd calls). lia.
Qed.

(** The theorem for two calls on day 0 and one on day 1. *)
Lemma tracked_signs_are_counted_by_day_witness :
  ∃ d', outcome Analytics.getData
          (trackAll [(0, true); (300, false); (86400000, true)] (firstVisit 0))
        = Normal d'
        ∧ totalSigns d' = 3
        ∧ correctSigns d' = 2
        ∧ countOn d' 0 = 2.
Proof.
  destruct (tracked_signs_are_counted_by_day (firstVisit 0) (mkAnalytics 0 0 0 ∅ 0)
              [(0, true); (300, false); (86400000, true)] 0 eq_refl)
    as (d' & Hs & Ht & Hc & Hd & _).
  exists d'. split; [exact Hs |]. split; [exact Ht |]. split; [exact Hc | exact Hd].
Defined.

(** * The labels of the chart *)





(** * Practice time *)

Lemma updatePracticeTime_saves (w : World) :
  readable (analytics_item w) = true →
  exec Analytics.updatePracticeTime w
  = set_analytics
      (Stored (mkAnalytics (totalSigns (loadAnalytics w)) (correctSigns (loadAnalytics w))
                 (practiceTime (loadAnalytics w)
                  + (clock w - sessionStart (loadAnalytics w)) `div` 1000)
                 (dailyProgress (loadAnalytics w)) (clock w))) w.
Proof. intros Hr. unfold exec. by rewrite stats_updatePracticeTime_run. Qed.

Lemma floor_split (a b : Z) :
  a `div` 1000 + b `div` 1000 ≤ (a + b) `div` 1000 ≤ a `div` 1000 + b `div` 1000 + 1.
Proof.
  pose proof (Z.div_mod a 1000 ltac:(lia)).
  pose proof (Z.div_mod b 1000 ltac:(lia)).
  pose proof (Z.div_mod (a + b) 1000 ltac:(lia)).
  pose proof (Z.mod_pos_bound a 1000 ltac:(lia)).
  pose proof (Z.mod_pos_bound b 1000 ltac:(lia)).
  pose proof (Z.mod_pos_bound (a + b) 1000 ltac:(lia)).
  lia.
Qed.

(** X9.  With a record stored, [updatePracticeTime] adds the whole
    seconds since the session start to the practice time, moves the session
    start to now and leaves the counts alone; the practice time does not
    decrease when the clock is not before the session start.  Flushing once
    on the way loses less than a second: two flushes add at most one second
    less than a single late one, and never more. *)
Theorem practice_time_is_flushed_in_whole_seconds (w : World) (d : AnalyticsData) (t : Z) :
  analytics_item w = Stored d →
  let once := loadAnalytics (exec Analytics.updatePracticeTime w) in
  let twice := loadAnalytics
                 (exec Analytics.updatePracticeTime
                       (set_clock t (exec Analytics.updatePracticeTime w))) in
  let late := loadAnalytics (exec Analytics.updatePracticeTime (set_clock t w)) in
  (analytics_item (exec Analytics.updatePracticeTime w) = Stored once
   ∧ practiceTime once = practiceTime d + (clock w - sessionStart d) `div` 1000
   ∧ sessionStart once = clock w
   ∧ totalSigns once = totalSigns d
   ∧ correctSigns once = correctSigns d
   ∧ dailyProgress once = dailyProgress d)
  ∧ (sessionStart d ≤ clock w → practiceTime d ≤ practiceTime once)
  ∧ practiceTime twice ≤ practiceTime late ≤ practiceTime twice + 1.
Proof.
  intros Hd once twice late.
  assert (Hr : readable (analytics_item w) = true) by (by rewrite Hd).
  assert (Hl : loadAnalytics w = d) by (unfold loadAnalytics; by rewrite Hd).
  assert (Hr1 : readable (analytics_item (set_clock t w)) = true) by done.
  assert (Hl1 : loadAnalytics (set_clock t w) = d)
    by (unfold loadAnalytics; cbn; by rewrite Hd).
  subst once twice late.
  rewrite (updatePracticeTime_saves w Hr).
  rewrite (updatePracticeTime_saves (set_clock t w) Hr1).
  rewrite (updatePracticeTime_saves (set_clock t (set_analytics _ w))) by done.
  change (loadAnalytics (set_clock t (set_analytics ?x w))) with
    (loadAnalytics (set_analytics x w)).
  rewrite !loadAnalytics_stored, Hl, Hl1.
  cbn [practiceTime sessionStart totalSigns correctSigns dailyProgress clock
       set_clock set_analytics analytics_item].
  split; [done |]. split.
  - intros Hle. assert (0 ≤ (clock w - sessionStart d) `div` 1000)
      by (apply Z.div_pos; lia). lia.
  - pose proof (floor_split (clock w - sessionStart d) (t - clock w)) as H.
    replace (clock w - sessionStart d + (t - clock w)) with (t - sessionStart d) in H by lia.
    lia.
Qed.

(** The theorem for 7 seconds stored and a flush after 61.5 seconds. *)
Lemma practice_time_is_flushed_in_whole_seconds_witness :
  practiceTime
    (loadAnalytics
       (exec Analytics.updatePracticeTime
             (set_clock 61500 (set_analytics (Stored (mkAnalytics 0 0 7 ∅ 0)) (firstVisit 0)))))
  = 7 + 61500 `div` 1000.
Proof.
  destruct (practice_time_is_flushed_in_whole_seconds
              (set_clock 61500 (set_analytics (Stored (mkAnalytics 0 0 7 ∅ 0)) (firstVisit 0)))
              (mkAnalytics 0 0 7 ∅ 0) 0 eq_refl) as ((_ & H & _) & _).
  exact H.
Defined.

(** * The practice time label *)

(** X10.  For a time of [seconds >= 0], [formatTime] shows the whole
    minutes only: with [h] hours and [m < 60] minutes making up
    [seconds div 60], the text is [m] followed by m when [h = 0] and
    [h]h [m]m otherwise, and the seconds left over do not change it. *)
Theorem formatTime_shows_whole_minutes (seconds : Z) :
  0 ≤ seconds →
  ∃ h m,
    0 ≤ h ∧ 0 ≤ m < 60
    ∧ h * 60 + m = seconds `div` 60
    ∧ Analytics.formatTime seconds
      = (if h =? 0 then decimal m +:+ "m"
         else decimal h +:+ "h " +:+ decimal m +:+ "m")
    ∧ Analytics.formatTime seconds = Analytics.formatTime (60 * (seconds `div` 60)).
Proof.
  intros Hs.
  assert (Hfmt : ∀ s, 0 ≤ s →
            Analytics.formatTime s
            = (if (s `div` 60) `div` 60 =? 0 then decimal ((s `div` 60) `mod` 60) +:+ "m"
               else decimal ((s `div` 60) `div` 60) +:+ "h "
                    +:+ decimal ((s `div` 60) `mod` 60) +:+ "m")).
  { intros s H0. unfold Analytics.formatTime. cbv zeta.
    rewrite Z.rem_mod_nonneg by lia.
    assert (E1 : s `div` 3600 = (s `div` 60) `div` 60)
      by (rewrite Z.div_div by lia; reflexivity).
    assert (E2 : (s `mod` 3600) `div` 60 = (s `div` 60) `mod` 60).
    { change 3600 with (60 * 60). rewrite Z.rem_mul_r by lia.
      rewrite (Z.mul_comm 60 (_ `mod` 60)), Z.div_add by lia.
      rewrite (Z.div_small (s `mod` 60)) by (apply Z.mod_pos_bound; lia). lia. }
    rewrite E1, E2.
    assert (0 ≤ (s `div` 60) `div` 60) by (apply Z.div_pos; [apply Z.div_pos |]; lia).
    destruct (Z.ltb_spec 0 ((s `div` 60) `div` 60)), (Z.eqb_spec ((s `div` 60) `div` 60) 0);
      try lia; reflexivity. }
  exists ((seconds `div` 60) `div` 60), ((seconds `div` 60) `mod` 60).
  assert (0 ≤ seconds `div` 60) by (apply Z.div_pos; lia).
  split; [apply Z.div_pos; lia |].
  split; [apply Z.mod_pos_bound; lia |].
  split; [pose proof (Z.div_mod (seconds `div` 60) 60 ltac:(lia)); lia |].
  split; [by apply Hfmt |].
  rewrite (Hfmt seconds Hs), (Hfmt (60 * (seconds `div` 60))) by lia.
  by rewrite (Z.mul_comm 60), Z.div_mul by lia.
Qed.

(** The theorem for 3725 seconds. *)
Lemma formatTime_shows_whole_minutes_witness :
  Analytics.formatTime 3725 = Analytics.formatTime (60 * (3725 `div` 60)).
Proof.
  destruct (formatTime_shows_whole_minutes 3725) as (h & m & _ & _ & _ & _ & H).
  - lia.
  - exact H.
Defined.

(** * The bars of the chart *)

Lemma maxValue_bounds (days : list Z) :
  10 ≤ Analytics.maxValue days ∧ Forall (λ v, v ≤ Analytics.maxValue days) days.
Proof.
  unfold Analytics.maxValue. induction days as [| v days [IH1 IH2]]; cbn.
  - split; [lia | constructor].
  - split; [lia |]. constructor; [lia |].
    eapply Forall_impl; [exact IH2 |]. cbn. intros. lia.
Qed.

(** X11.  On a canvas at least 80 wide and high, with no negative count,
    every bar of [drawChart] lies inside the padded plot: it starts at or
    right of 40, ends at or left of [width - 40], its top is at or below
    40, its foot is on the line [height - 40]; a bar ends before the next
    one begins, and there is one bar for each count. *)
Theorem bars_stay_inside_the_plot (width height : Z) (days : list Z) (i : nat) (b : Bar) :
  80 ≤ width →
  80 ≤ height →
  Forall (λ v, 0 ≤ v) days →
  Analytics.bars width height days !! i = Some b →
  ((40 <= bar_x b)%Q
   ∧ (bar_x b + bar_width b <= inject_Z width - 40)%Q
   ∧ (40 <= bar_y b)%Q
   ∧ (bar_y b + bar_height b == inject_Z height - 40)%Q
   ∧ (0 <= bar_height b)%Q
   ∧ (0 <= bar_width b)%Q)
  ∧ (∀ b', Analytics.bars width height days !! S i = Some b' →
           (bar_x b + bar_width b <= bar_x b')%Q)
  ∧ length (Analytics.bars width height days) = length days.
Proof.
  intros Hw Hh Hpos Hb.
  unfold Analytics.bars in *. cbv zeta in *.
  rewrite list_lookup_imap in Hb.
  destruct (days !! i) as [v |] eqn:Hv; [| discriminate].
  injection Hb as <-. cbn [bar_x bar_y bar_width bar_height].
  pose proof (lookup_lt_Some _ _ _ Hv) as Hi.
  destruct (maxValue_bounds days) as [Hm10 Hmax].
  assert (Hv0 : 0 ≤ v) by (eapply (proj1 (Forall_lookup _ _) Hpos); eauto).
  assert (Hvm : v ≤ Analytics.maxValue days)
    by (eapply (proj1 (Forall_lookup _ _) Hmax); eauto).
  set (M := Analytics.maxValue days) in *.
  set (n := length days) in *.
  (* the width of a slot *)
  assert (Hn : (0 < inject_Z (Z.of_nat n))%Q)
    by (change (inject_Z 0 < inject_Z (Z.of_nat n))%Q; rewrite <- Zlt_Qlt; lia).
  assert (HW : (80 <= inject_Z width)%Q)
    by (change (inject_Z 80 <= inject_Z width)%Q; rewrite <- Zle_Qle; lia).
  assert (HH : (80 <= inject_Z height)%Q)
    by (change (inject_Z 80 <= inject_Z height)%Q; rewrite <- Zle_Qle; lia).
  set (B := ((inject_Z width - 40 * 2) / inject_Z (Z.of_nat n))%Q).
  assert (HB0 : (0 <= B)%Q) by (apply Qle_shift_div_l; [done | lra]).
  assert (HBn : (B * inject_Z (Z.of_nat n) == inject_Z width - 40 * 2)%Q).
  { unfold B. field. lra. }
  assert (Hi0 : (0 <= inject_Z (Z.of_nat i))%Q)
    by (change (inject_Z 0 <= inject_Z (Z.of_nat i))%Q; rewrite <- Zle_Qle; lia).
  assert (HiB : (0 <= inject_Z (Z.of_nat i) * B)%Q) by (by apply Qmult_le_0_compat).
  assert (Hin : (inject_Z (Z.of_nat i) + 1 <= inject_Z (Z.of_nat n))%Q).
  { change 1%Q with (inject_Z 1). rewrite <- inject_Z_plus, <- Zle_Qle. lia. }
  assert (Hslack : (0 <= (inject_Z (Z.of_nat n) - inject_Z (Z.of_nat i) - 1) * B)%Q)
    by (apply Qmult_le_0_compat; lra).
  (* the height of a bar *)
  assert (HM : (0 < inject_Z M)%Q)
    by (change (inject_Z 0 < inject_Z M)%Q; rewrite <- Zlt_Qlt; lia).
  assert (Hq0 : (0 <= inject_Z v / inject_Z M)%Q).
  { apply Qle_shift_div_l; [done |].
    rewrite Qmult_0_l. change (inject_Z 0 <= inject_Z v)%Q. rewrite <- Zle_Qle. lia. }
  assert (Hq1 : (inject_Z v / inject_Z M <= 1)%Q).
  { apply Qle_shift_div_r; [done |]. rewrite Qmult_1_l, <- Zle_Qle. lia. }
  set (r := (inject_Z v / inject_Z M)%Q) in *.
  assert (Hr0 : (0 <= r * (inject_Z height - 40 * 2))%Q)
    by (apply Qmult_le_0_compat; lra).
  assert (Hr1 : (0 <= (1 - r) * (inject_Z height - 40 * 2))%Q)
    by (apply Qmult_le_0_compat; lra).
  split; [| split].
  - repeat split; lra.
  - intros b' Hb'. rewrite list_lookup_imap in Hb'.
    destruct (days !! S i) as [v' |]; [| discriminate].
    injection Hb' as <-. cbn [bar_x]. fold B.
    replace (Z.of_nat (S i)) with (Z.of_nat i + 1) by lia.
    rewrite inject_Z_plus. change (inject_Z 1) with 1%Q. lra.
  - apply length_imap.
Qed.

(** The theorem on a canvas of 400 by 200, for the last bar of a week. *)
Lemma bars_stay_inside_the_plot_witness :
  length (Analytics.bars 400 200 [0; 0; 0; 0; 0; 5; 12]) = 7%nat.
Proof.
  destruct (bars_stay_inside_the_plot 400 200 [0; 0; 0; 0; 0; 5; 12] 6
              (mkBar (40 + 6 * ((400 - 40 * 2) / 7) + (400 - 40 * 2) / 7 * (2 # 10))
                     (200 - 40 - 12 / 12 * (200 - 40 * 2))
                     ((400 - 40 * 2) / 7 * (6 # 10))
                     (12 / 12 * (200 - 40 * 2))
                     (40 + 6 * ((400 - 40 * 2) / 7) + (400 - 40 * 2) / 7 * (2 # 10)
                      + (400 - 40 * 2) / 7 * (3 # 10))
                     (200 - 40 - 12 / 12 * (200 - 40 * 2) - 5)
                     (200 - 40 + 20)))
    as (_ & _ & H).
  - lia.
  - lia.
  - repeat constructor; lia.
  - reflexivity.
  - exact H.
Defined.

(** * What a handler can touch *)

Lemma engines_id (w : World) :
  engines (game_item w) (hud (page w)) (analytics_item w) w = w.
Proof. by destruct w as [? ? ? ? [? ? ? ?] ? ? ? ?]. Qed.

Lemma engines_engines (g g' : item GameData) (h h' : option Hud)
      (a a' : item AnalyticsData) (w : World) :
  engines g' h' a' (engines g h a w) = engines g' h' a' w.
Proof. reflexivity. Qed.

(** [addXP] touches the progress record and the progress elements only. *)
Lemma addXP_frame (amount : Z) (w : World) :
  ∃ c g h, Gamification.addXP amount w = (c, engines g h (analytics_item w) w).
Proof.
  destruct (readable (game_item w)) eqn:Hr.
  - rewrite game_addXP_run by done. cbv zeta.
    destruct (hud (page w)) as [h0 |] eqn:Hh.
    + eexists _, (Stored _), (Some _). reflexivity.
    + eexists _, (Stored _), None. f_equal.
      destruct w as [? ? ? ? [? ? ? ?] ? ? ? ?]. cbn in *. by subst.
  - exists (Throw SyntaxError), (game_item w), (hud (page w)).
    rewrite engines_id. unfold Gamification.addXP. rewrite bind_run.
    rewrite game_getData_corrupt; [done |]. by destruct (game_item w).
Qed.

(** [trackSign] touches the analytics record only. *)
Lemma trackSign_frame (isCorrect : bool) (w : World) :
  ∃ c a, Analytics.trackSign isCorrect w = (c, set_analytics a w).
Proof.
  destruct (readable (analytics_item w)) eqn:Hr.
  - rewrite stats_trackSign_run by done. by eexists _, _.
  - exists (Throw SyntaxError), (analytics_item w).
    unfold Analytics.trackSign. rewrite bind_run.
    rewrite stats_getData_corrupt by (by destruct (analytics_item w)).
    f_equal. by destruct w.
Qed.

Lemma onCorrectDetection_frame (w : World) :
  ∃ c g h a, ModeSwitcher.onCorrectDetection w = (c, engines g h a w).
Proof.
  unfold ModeSwitcher.onCorrectDetection. unfold_monad.
  destruct (window_Gamification w) eqn:Hg.
  - destruct (addXP_frame 10 w) as (c & g & h & E). rewrite E.
    destruct c as [[] | e]; [| by eexists _, _, _, _].
    change (window_Analytics (engines g h (analytics_item w) w)) with (window_Analytics w).
    destruct (window_Analytics w).
    + destruct (trackSign_frame true (engines g h (analytics_item w) w)) as (c & a & E').
      rewrite E'. by exists c, g, h, a.
    + by eexists _, _, _, _.
  - destruct (window_Analytics w).
    + destruct (trackSign_frame true w) as (c & a & E'). rewrite E'.
      exists c, (game_item w), (hud (page w)), a.
      f_equal. by destruct w as [? ? ? ? [? ? ? ?] ? ? ? ?].
    + exists (Normal tt), (game_item w), (hud (page w)), (analytics_item w).
      by rewrite engines_id.
Qed.

Lemma addToTranscript_listed (s : string) (pct : Z) (w : World) :
  ModeSwitcher.addToTranscript s pct w = (Normal tt, listed s pct w).
Proof.
  unfold listed. destruct (transcriptList (page w)) as [children |] eqn:E.
  - by apply addToTranscript_run.
  - unfold ModeSwitcher.addToTranscript. unfold_monad. by rewrite E.
Qed.

(** The shape of the world after a poll, on any page. *)
Lemma pollTick_outline (r : option Sample) (w : World) :
  ((r = None ∨ detectionLabel (page w) = None) ∧ exec (ModeSwitcher.pollTick r) w = w)
  ∨ (∃ data, r = Some data
             ∧ is_Some (detectionLabel (page w))
             ∧ exec (ModeSwitcher.pollTick r) w = labelled (labelFor data) w)
  ∨ (∃ data s c signs g h a,
        r = Some data
        ∧ is_Some (detectionLabel (page w))
        ∧ ModeSwitcher.shown data = Some (s, c)
        ∧ transcriptSigns (switcher w) = Some signs
        ∧ 80 ≤ Math_round (c * 100) ∧ (s ∉ signs)
        ∧ let w3 := engines g h a
                      (listed s (Math_round (c * 100)) (labelled (labelFor data) w)) in
          exec (ModeSwitcher.pollTick r) w = w3
          ∨ exec (ModeSwitcher.pollTick r) w
            = set_switcher (mkSwitcher (detectionInterval (switcher w)) (Some s)
                                       (clock w) (Some ({[s]} ∪ signs))) w3).
Proof.
  destruct r as [data |]; [| left; split; [by left | done]].
  destruct (detectionLabel (page w)) as [v |] eqn:Hv.
  2: { left. split; [by right |].
       unfold exec, ModeSwitcher.pollTick. unfold_monad. by rewrite Hv. }
  assert (Hl : is_Some (detectionLabel (page w))) by (by rewrite Hv).
  destruct (ModeSwitcher.shown data) as [[s c] |] eqn:Hs.
  2: { right; left. exists data. split; [done |]. split; [done |].
       unfold exec. rewrite pollTick_nothing by done. unfold labelFor. by rewrite Hs. }
  assert (El : labelFor data = mkLabel (Some s) (Math_round (c * 100)) true)
    by (unfold labelFor; by rewrite Hs).
  destruct (transcriptSigns (switcher w)) as [signs |] eqn:Hsig.
  2: { right; left. exists data. split; [done |]. split; [done |].
       unfold exec, ModeSwitcher.pollTick. unfold_monad.
       rewrite Hv, Hs. cbn [switcher set_page]. rewrite Hsig. by rewrite El. }
  destruct ((80 <=? Math_round (c * 100)) && negb (bool_decide (s ∈ signs))) eqn:Hgate.
  2: { right; left. exists data. split; [done |]. split; [done |].
       unfold exec. rewrite (pollTick_skip data s c w); [by rewrite El | done | | done |].
       - by rewrite Hsig.
       - unfold accepted. by rewrite Hsig. }
  right; right.
  apply andb_true_iff in Hgate as [Hpct Hnew].
  apply Z.leb_le in Hpct. apply negb_true_iff, bool_decide_eq_false in Hnew.
  set (pct := Math_round (c * 100)) in *.
  set (w1 := labelled (labelFor data) w).
  destruct (onCorrectDetection_frame (listed s pct w1)) as (c' & g & h & a & E).
  exists data, s, c, signs, g, h, a.
  do 6 (split; [done |]). cbv zeta.
  unfold exec, ModeSwitcher.pollTick. unfold_monad.
  rewrite Hv, Hs. fold pct. cbn [switcher set_page]. rewrite Hsig.
  rewrite (proj2 (andb_true_iff _ _)) by (split; [by apply Z.leb_le
    | by apply negb_true_iff, bool_decide_eq_false]).
  rewrite <- El. change (set_page _ w) with w1.
  rewrite addToTranscript_listed, E.
  destruct c' as [[] | e]; [right | by left].
  cbn [snd]. f_equal.
  change (switcher (engines g h a (listed s pct w1))) with (switcher (listed s pct w1)).
  assert (Esw : switcher (listed s pct w1) = switcher w).
  { unfold listed. by destruct (transcriptList (page w1)). }
  assert (Ecl : clock w1 = clock w) by done.
  by rewrite Esw, Hsig.
Qed.

(** * The transcript and the label on any page *)

Lemma removelast_shorter {A : Type} (l : list A) :
  length (removelast l) = pred (length l).
Proof. rewrite removelast_firstn_len, length_take. lia. Qed.

Lemma removelast_In {A : Type} (x : A) (l : list A) :
  In x (removelast l) → In x l.
Proof.
  induction l as [| z l IH]; [done |].
  destruct l as [| z' l]; [done |]. cbn [removelast].
  intros [-> | Hin]; [by left | right; by apply IH].
Qed.

Lemma entered_length (e : Node) (children : list Node) :
  (length children ≤ 20 → length (entered e children) ≤ 20)%nat.
Proof.
  intros H. unfold entered.
  set (l := if ModeSwitcher.has_p children then [] else children).
  assert (Hl : (length l ≤ 20)%nat) by (subst l; destruct (ModeSwitcher.has_p _); cbn; lia).
  destruct (Z.ltb_spec 20 (Z.of_nat (length (e :: l)))) as [Hlt | Hge].
  - destruct l as [| x l]; [cbn in Hlt; lia |].
    rewrite removelast_shorter. cbn [length] in *. lia.
  - cbn [length] in *. lia.
Qed.

Lemma entered_no_hint (e : Node) (children : list Node) :
  e ≠ Placeholder → ModeSwitcher.has_p (entered e children) = false.
Proof.
  intros He. unfold entered.
  destruct (ModeSwitcher.has_p children) eqn:Hp.
  - cbn. by destruct e.
  - assert (Hc : ModeSwitcher.has_p (e :: children) = false)
      by (cbn; rewrite orb_false_iff; split; [by destruct e | exact Hp]).
    destruct (20 <? Z.of_nat (length (e :: children))); [| exact Hc].
    unfold ModeSwitcher.has_p in *.
    apply not_true_is_false. intros Hex.
    apply existsb_exists in Hex as (x & Hin & Hx).
    assert (Hin' : In x (e :: children)) by (by apply removelast_In).
    assert (existsb (λ n, match n with Placeholder => true | _ => false end)
                    (e :: children) = true)
      by (apply existsb_exists; eauto).
    congruence.
Qed.

Lemma transcript_after_poll (r : option Sample) (w : World) :
  transcriptList (page (exec (ModeSwitcher.pollTick r) w)) = transcriptList (page w)
  ∨ ∃ s pct children,
      transcriptList (page w) = Some children
      ∧ transcriptList (page (exec (ModeSwitcher.pollTick r) w))
        = Some (entered (Entry s pct (clock w)) children).
Proof.
  destruct (pollTick_outline r w)
    as [[_ E] | [(data & _ & _ & E) | (data & s & c & signs & g & h & a & _ & _ & _ & _ & _ & _ & E)]].
  - left. by rewrite E.
  - left. by rewrite E.
  - cbv zeta in E.
    assert (El : transcriptList (page (exec (ModeSwitcher.pollTick r) w))
                 = transcriptList
                     (page (listed s (Math_round (c * 100)) (labelled (labelFor data) w))))
      by (destruct E as [-> | ->]; reflexivity).
    rewrite El. unfold listed. cbn [labelled page set_page transcriptList].
    destruct (transcriptList (page w)) as [children |] eqn:Hc.
    + right. by exists s, (Math_round (c * 100)), children.
    + left. cbn. by rewrite Hc.
Qed.

Lemma page_after_switch (e : event) (w : World) :
  match e with Start | Stop | ClockAt _ => True | _ => False end →
  page (step e w) = page w.
Proof.
  destruct e; try done; intros _; cbn [step]; unfold exec.
  - unfold ModeSwitcher.startSignDetection. unfold_monad.
    by destruct (detectionInterval (switcher w)).
  - unfold ModeSwitcher.stopSignDetection. unfold_monad.
    by destruct (detectionInterval (switcher w)).
Qed.

Lemma page_after_clear (w : World) :
  transcriptList (page (step Clear w))
  = match transcriptList (page w) with
    | Some _ => Some [Placeholder]
    | None => None
    end.
Proof.
  cbn [step]. unfold exec, ModeSwitcher.clearTranscript. unfold_monad.
  destruct (transcriptList (page w)) eqn:E; cbn [switcher set_page];
    destruct (transcriptSigns (switcher w)); cbn; by rewrite ?E.
Qed.

(** X12.  A transcript of at most twenty children has at most twenty
    after any events of a session (clock, start, stop, poll, clear); and
    the hint is never shown beside entries: the list is the hint alone or
    has no hint in it. *)
Theorem transcript_holds_twenty_entries (es : list event) (w : World) :
  (length (transcript w) ≤ 20)%nat →
  (length (transcript (run es w)) ≤ 20)%nat
  ∧ (transcript w = [Placeholder] ∨ ModeSwitcher.has_p (transcript w) = false →
     transcript (run es w) = [Placeholder]
     ∨ ModeSwitcher.has_p (transcript (run es w)) = false).
Proof.
  revert w. induction es as [| e es IH]; intros w H; [done |].
  rewrite run_cons.
  assert (Hstep : (length (transcript (step e w)) ≤ 20)%nat
                  ∧ (transcript w = [Placeholder] ∨ ModeSwitcher.has_p (transcript w) = false →
                     transcript (step e w) = [Placeholder]
                     ∨ ModeSwitcher.has_p (transcript (step e w)) = false)).
  { unfold transcript in *. destruct e as [t | | | r |].
    - done.
    - by rewrite (page_after_switch Start).
    - by rewrite (page_after_switch Stop).
    - cbn [step].
      destruct (transcript_after_poll r w) as [E | (s & pct & children & Hc & E)].
      + by rewrite E.
      + rewrite E. rewrite Hc in H. cbn in *.
        split; [by apply entered_length |].
        intros _. right. by apply entered_no_hint.
    - rewrite page_after_clear. destruct (transcriptList (page w)); cbn.
      + split; [lia | by left].
      + split; [lia | by right]. }
  destruct Hstep as [Hlen Hhint].
  destruct (IH (step e w) Hlen) as [IH1 IH2].
  split; [exact IH1 |]. intros Hw. by apply IH2, Hhint.
Qed.

(** The theorem at a first visit, for a poll, a clear and a poll. *)
Lemma transcript_holds_twenty_entries_witness :
  (length (transcript (run [Poll (sample "hello" (9 # 10)); Clear;
                            Poll (sample "world" (85 # 100))] (firstVisit 0))) ≤ 20)%nat.
Proof.
  apply (transcript_holds_twenty_entries
           [Poll (sample "hello" (9 # 10)); Clear; Poll (sample "world" (85 # 100))]
           (firstVisit 0)).
  cbn. lia.
Defined.





(** * When an engine throws inside a poll *)

Lemma pollTick_attempt (data : Sample) (s : string) (c : Q) (signs : gset string)
      (w : World) :
  is_Some (detectionLabel (page w)) →
  ModeSwitcher.shown data = Some (s, c) →
  transcriptSigns (switcher w) = Some signs →
  80 ≤ Math_round (c * 100) →
  s ∉ signs →
  exec (ModeSwitcher.pollTick (Some data)) w
  = match ModeSwitcher.onCorrectDetection
            (listed s (Math_round (c * 100)) (labelled (labelFor data) w)) with
    | (Normal _, w3) =>
        set_switcher (mkSwitcher (detectionInterval (switcher w)) (Some s) (clock w)
                                 (Some ({[s]} ∪ signs))) w3
    | (Throw _, w3) => w3
    end.
Proof.
  intros [v Hv] Hs Hsig Hpct Hnew.
  assert (El : labelFor data = mkLabel (Some s) (Math_round (c * 100)) true)
    by (unfold labelFor; by rewrite Hs).
  set (pct := Math_round (c * 100)) in *.
  set (w1 := labelled (labelFor data) w).
  unfold exec, ModeSwitcher.pollTick. unfold_monad.
  rewrite Hv, Hs. fold pct. cbn [switcher set_page]. rewrite Hsig.
  rewrite (proj2 (andb_true_iff _ _)) by (split; [by apply Z.leb_le
    | by apply negb_true_iff, bool_decide_eq_false]).
  rewrite <- El. change (set_page _ w) with w1.
  rewrite addToTranscript_listed.
  destruct (onCorrectDetection_frame (listed s pct w1)) as (c' & g & h & a & E).
  rewrite E. destruct c' as [[] | e]; [| done].
  cbn [snd]. f_equal.
  change (switcher (engines g h a (listed s pct w1))) with (switcher (listed s pct w1)).
  assert (Esw : switcher (listed s pct w1) = switcher w).
  { unfold listed. by destruct (transcriptList (page w1)). }
  by rewrite Esw, Hsig.
Qed.

Lemma onCorrectDetection_corrupt (w : World) :
  window_Gamification w = true →
  game_item w = Corrupt →
  ModeSwitcher.onCorrectDetection w = (Throw SyntaxError, w).
Proof.
  intros Hg Hc. unfold ModeSwitcher.onCorrectDetection. unfold_monad. rewrite Hg.
  unfold Gamification.addXP. rewrite bind_run, game_getData_corrupt by done.
  reflexivity.
Qed.

Lemma onCorrectDetection_no_hud (w : World) :
  window_Gamification w = true →
  readable (game_item w) = true →
  hud (page w) = None →
  ModeSwitcher.onCorrectDetection w
  = (Throw TypeError, set_game (Stored (gained 10 (loadGame w))) w).
Proof.
  intros Hg Hr Hh. unfold ModeSwitcher.onCorrectDetection. unfold_monad. rewrite Hg.
  rewrite game_addXP_run by done. by rewrite Hh.
Qed.

Lemma polls_cons (r : option Sample) (n : nat) (w : World) :
  run (replicate (S n) (Poll r)) w
  = run (replicate n (Poll r)) (exec (ModeSwitcher.pollTick r) w).
Proof. reflexivity. Qed.

Lemma saves_listed (s : string) (pct : Z) (v : LabelView) (w : World) :
  is_Some (transcriptList (page w)) →
  saves s (listed s pct (labelled v w)) = S (saves s w).
Proof.
  intros [children Hc]. unfold listed, saves. cbn [labelled page set_page transcriptList].
  rewrite Hc. cbn. by rewrite String.eqb_refl.
Qed.

(** X14.  With a stored progress record that does not parse, [addXP]
    throws inside the callback before the sign is put into the set of seen
    signs: [n] polls answered with the same new sign at 0.795 or more send
    [n] save requests, and the set, the progress record and the analytics
    record stay as they were. *)
Theorem corrupt_progress_defeats_the_dedup
        (w : World) (s : string) (c : Q) (signs : gset string) (n : nat) :
  is_Some (detectionLabel (page w)) →
  is_Some (transcriptList (page w)) →
  transcriptSigns (switcher w) = Some signs →
  window_Gamification w = true →
  game_item w = Corrupt →
  s ≠ "" →
  (159 # 200 <= c)%Q →
  s ∉ signs →
  let w' := run (replicate n (Poll (sample s c))) w in
  saves s w' = (saves s w + n)%nat
  ∧ transcriptSigns (switcher w') = Some signs
  ∧ game_item w' = Corrupt
  ∧ analytics_item w' = analytics_item w.
Proof.
  intros Hl Ht Hsig Hg Hc Hs Hconf Hnew. cbv zeta.
  assert (Hshown : ModeSwitcher.shown {| sign := Some s; conf := Some c |} = Some (s, c))
    by (apply shown_sample; [done | lra]).
  assert (Hpct : 80 ≤ Math_round (c * 100)) by (by apply round_threshold).
  revert w Hl Ht Hsig Hg Hc. induction n as [| n IH]; intros w Hl Ht Hsig Hg Hc.
  - cbn. split; [lia | done].
  - unfold sample. rewrite polls_cons.
    rewrite (pollTick_attempt _ s c signs w) by done.
    set (w2 := listed s _ _).
    assert (E2 : game_item w2 = Corrupt ∧ window_Gamification w2 = true
                 ∧ switcher w2 = switcher w ∧ analytics_item w2 = analytics_item w
                 ∧ is_Some (detectionLabel (page w2))
                 ∧ is_Some (transcriptList (page w2))).
    { subst w2. unfold listed. destruct Ht as [children Hch].
      cbn [labelled page set_page transcriptList]. rewrite Hch. by repeat split. }
    destruct E2 as (Hc2 & Hg2 & Hsw2 & Ha2 & Hl2 & Ht2).
    rewrite onCorrectDetection_corrupt by done.
    destruct (IH w2) as (IH1 & IH2 & IH3 & IH4); try done.
    { by rewrite Hsw2. }
    fold (sample s c). rewrite IH1, IH2, IH3, IH4, Ha2.
    split; [| done]. subst w2. rewrite saves_listed by done. lia.
Qed.

(** The theorem for three polls over a progress record that does not parse. *)
Lemma corrupt_progress_defeats_the_dedup_witness :
  saves "hello" (run (replicate 3 (Poll (sample "hello" (9 # 10))))
                     (set_game Corrupt (firstVisit 0)))
  = 3%nat.
Proof.
  destruct (corrupt_progress_defeats_the_dedup
              (set_game Corrupt (firstVisit 0)) "hello" (9 # 10) ∅ 3) as [H _].
  - by eexists.
  - by eexists.
  - reflexivity.
  - reflexivity.
  - reflexivity.
  - discriminate.
  - vm_compute. discriminate.
  - apply not_elem_of_empty.
  - exact H.
Defined.

(** X15.  On a page without the progress elements [addXP] saves and then
    throws, so the sign is never put into the set of seen signs: [n] polls
    answered with the same new sign at 0.795 or more add [10 * n] points
    and send [n] save requests, while the set and the analytics record stay
    as they were. *)
Theorem missing_progress_elements_score_every_poll
        (w : World) (s : string) (c : Q) (signs : gset string) (n : nat) :
  is_Some (detectionLabel (page w)) →
  is_Some (transcriptList (page w)) →
  transcriptSigns (switcher w) = Some signs →
  window_Gamification w = true →
  readable (game_item w) = true →
  hud (page w) = None →
  s ≠ "" →
  (159 # 200 <= c)%Q →
  s ∉ signs →
  let w' := run (replicate n (Poll (sample s c))) w in
  xp (loadGame w') = xp (loadGame w) + 10 * Z.of_nat n
  ∧ saves s w' = (saves s w + n)%nat
  ∧ transcriptSigns (switcher w') = Some signs
  ∧ analytics_item w' = analytics_item w.
Proof.
  intros Hl Ht Hsig Hg Hr Hh Hs Hconf Hnew. cbv zeta.
  assert (Hshown : ModeSwitcher.shown {| sign := Some s; conf := Some c |} = Some (s, c))
    by (apply shown_sample; [done | lra]).
  assert (Hpct : 80 ≤ Math_round (c * 100)) by (by apply round_threshold).
  revert w Hl Ht Hsig Hg Hr Hh. induction n as [| n IH]; intros w Hl Ht Hsig Hg Hr Hh.
  - cbn. split; [lia |]. split; [lia | done].
  - unfold sample. rewrite polls_cons.
    rewrite (pollTick_attempt _ s c signs w) by done.
    set (w2 := listed s _ _).
    assert (E2 : game_item w2 = game_item w ∧ window_Gamification w2 = true
                 ∧ switcher w2 = switcher w ∧ analytics_item w2 = analytics_item w
                 ∧ is_Some (detectionLabel (page w2))
                 ∧ is_Some (transcriptList (page w2))
                 ∧ hud (page w2) = None
                 ∧ xp (loadGame w2) = xp (loadGame w)).
    { subst w2. unfold listed. destruct Ht as [children Hch].
      cbn [labelled page set_page transcriptList]. rewrite Hch.
      repeat split; try done; by apply same_game_same_xp. }
    destruct E2 as (Hg2' & Hg2 & Hsw2 & Ha2 & Hl2 & Ht2 & Hh2 & Hx2).
    rewrite onCorrectDetection_no_hud by (done || by rewrite Hg2').
    set (w3 := set_game _ w2).
    destruct (IH w3) as (IH1 & IH2 & IH3 & IH4); try done.
    { by rewrite <- Hsw2 in Hsig. }
    fold (sample s c). rewrite IH1, IH2, IH3, IH4.
    split; [| split; [| split]].
    + subst w3. unfold loadGame at 1. cbn [game_item set_game gained xp]. lia.
    + subst w3 w2. change (saves s (set_game ?g ?x)) with (saves s x).
      rewrite saves_listed by done. lia.
    + done.
    + exact Ha2.
Qed.

(** The theorem for three polls on a page without the progress elements. *)
Lemma missing_progress_elements_score_every_poll_witness :
  xp (loadGame (run (replicate 3 (Poll (sample "hello" (9 # 10))))
                    (put_hud None (firstVisit 0))))
  = 30.
Proof.
  destruct (missing_progress_elements_score_every_poll
              (put_hud None (firstVisit 0)) "hello" (9 # 10) ∅ 3) as [H _].
  - by eexists.
  - by eexists.
  - reflexivity.
  - reflexivity.
  - reflexivity.
  - reflexivity.
  - discriminate.
  - vm_compute. discriminate.
  - apply not_elem_of_empty.
  - exact H.
Defined.

(** * Every saved detection is scored once *)

Lemma same_stats_same_total (w w' : World) :
  analytics_item w' = analytics_item w →
  totalSigns (loadAnalytics w') = totalSigns (loadAnalytics w).
Proof. unfold loadAnalytics. intros ->. by destruct (analytics_item w). Qed.

Lemma start_effects (w : World) :
  (ready w = true → ready (step Start w) = true)
  ∧ posted (step Start w) = posted w
  ∧ game_item (step Start w) = game_item w
  ∧ analytics_item (step Start w) = analytics_item w
  ∧ page (step Start w) = page w.
Proof.
  unfold step, exec, ModeSwitcher.startSignDetection. unfold_monad.
  destruct (detectionInterval (switcher w)); [done |].
  split; [| done]. intros H.
  destruct (ready_parts w H) as (? & ? & ? & ? & ? & ? & ? & ?).
  by apply ready_intro.
Qed.

Lemma stop_frame (w : World) :
  game_item (step Stop w) = game_item w
  ∧ analytics_item (step Stop w) = analytics_item w.
Proof.
  unfold step, exec, ModeSwitcher.stopSignDetection. unfold_monad.
  by destruct (detectionInterval (switcher w)).
Qed.

(** One event on a ready page: nothing is sent, or one confident
    detection is sent and scored. *)
Lemma step_accounts (e : event) (w : World) :
  ready w = true →
  ready (step e w) = true
  ∧ ((posted (step e w) = posted w
      ∧ xp (loadGame (step e w)) = xp (loadGame w)
      ∧ totalSigns (loadAnalytics (step e w)) = totalSigns (loadAnalytics w))
     ∨ (∃ r, confident r
             ∧ posted (step e w) = r :: posted w
             ∧ xp (loadGame (step e w)) = xp (loadGame w) + 10
             ∧ totalSigns (loadAnalytics (step e w)) = totalSigns (loadAnalytics w) + 1)).
Proof.
  intros Hready. destruct e as [t | | | r |].
  - split; [done |]. left. split; [done |].
    split; [by apply same_game_same_xp | by apply same_stats_same_total].
  - destruct (start_effects w) as (Hr & Hp & Hg & Ha & _).
    split; [by apply Hr |]. left. split; [done |].
    split; [by apply same_game_same_xp | by apply same_stats_same_total].
  - destruct (stop_effects w) as (Hr & Hp & _). destruct (stop_frame w) as [Hg Ha].
    split; [by rewrite Hr |]. left. split; [done |].
    split; [by apply same_game_same_xp | by apply same_stats_same_total].
  - cbn [step].
    assert (Hcase :
      (∃ data s c, r = Some data ∧ ModeSwitcher.shown data = Some (s, c)
         ∧ (80 <=? Math_round (c * 100)) && negb (bool_decide (s ∈ accepted w)) = true)
      ∨ (∀ data s c, r = Some data → ModeSwitcher.shown data = Some (s, c) →
           (80 <=? Math_round (c * 100)) && negb (bool_decide (s ∈ accepted w)) = false)).
    { destruct r as [data |]; [| right; intros; discriminate].
      destruct (ModeSwitcher.shown data) as [[s c] |] eqn:Hs;
        [| right; intros ? ? ? [= <-]; congruence].
      destruct ((80 <=? Math_round (c * 100)) && negb (bool_decide (s ∈ accepted w)))
        eqn:Hg.
      - left. by exists data, s, c.
      - right. intros ? s' c' [= <-] E. rewrite Hs in E.
        injection E as <- <-. exact Hg. }
    destruct Hcase as [(data & s & c & -> & Hs & Hgate) | Hquiet].
    + destruct (commit_effects data s c w Hready Hs Hgate)
        as (Hr1 & _ & _ & Hp & _ & _ & Hg & Ha).
      split; [done |]. right.
      exists (SaveDetection s (inject_Z (Math_round (c * 100)) / 100)%Q).
      split; [| split; [done | split]].
      * exists s, (Math_round (c * 100)). split; [done |].
        apply andb_true_iff in Hgate as [Hpct _]. by apply Z.leb_le.
      * unfold loadGame at 1. by rewrite Hg.
      * unfold loadAnalytics at 1. by rewrite Ha.
    + destruct (quiet_effects r w Hready Hquiet)
        as (Hr1 & _ & _ & _ & Hp & _ & Hg & Ha).
      split; [done |]. left. split; [done |].
      split; [by apply same_game_same_xp | by apply same_stats_same_total].
  - destruct (clear_effects w Hready) as (Hr & Hp & _ & _ & Hg & Ha).
    split; [done |]. left. split; [done |].
    split; [by apply same_game_same_xp | by apply same_stats_same_total].
Qed.

(** X16.  On a page with all its elements and readable records, whatever
    the events of the session: the requests sent are detections at 80% or
    more, each one is worth ten points and one tracked sign, and nothing
    else changes the experience or the total; the page stays such a
    page. *)
Theorem saved_detections_are_scored_once (es : list event) (w : World) :
  ready w = true →
  ∃ sent,
    posted (run es w) = sent ++ posted w
    ∧ Forall confident sent
    ∧ xp (loadGame (run es w)) = xp (loadGame w) + 10 * Z.of_nat (length sent)
    ∧ totalSigns (loadAnalytics (run es w))
      = totalSigns (loadAnalytics w) + Z.of_nat (length sent)
    ∧ ready (run es w) = true.
Proof.
  revert w. induction es as [| e es IH]; intros w Hready.
  - exists []. cbn. repeat split; [constructor | lia | lia | done].
  - rewrite run_cons.
    destruct (step_accounts e w Hready) as [Hr [(Hp & Hx & Ht) | (r & Hc & Hp & Hx & Ht)]];
      destruct (IH (step e w) Hr) as (sent & Hp' & Hf & Hx' & Ht' & Hr').
    + exists sent. rewrite Hp', Hx', Ht', Hp, Hx, Ht. done.
    + exists (sent ++ [r]). rewrite Hp', Hx', Ht', Hp, Hx, Ht.
      rewrite <- app_assoc, length_app. cbn [length app].
      split; [done |]. split; [apply Forall_app; split; [done | by constructor] |].
      split; [lia |]. split; [lia | done].
Qed.

(** The theorem at a first visit, for a poll, a restart and the same poll. *)
Lemma saved_detections_are_scored_once_witness :
  ∃ sent,
    posted (run [Poll (sample "hello" (9 # 10)); Stop; Start; Poll (sample "hello" (9 # 10))]
                (firstVisit 0))
    = sent ++ []
    ∧ xp (loadGame (run [Poll (sample "hello" (9 # 10)); Stop; Start;
                         Poll (sample "hello" (9 # 10))] (firstVisit 0)))
      = 0 + 10 * Z.of_nat (length sent).
Proof.
  destruct (saved_detections_are_scored_once
              [Poll (sample "hello" (9 # 10)); Stop; Start; Poll (sample "hello" (9 # 10))]
              (firstVisit 0) eq_refl) as (sent & H1 & _ & H2 & _).
  exists sent. split; [exact H1 | exact H2].
Defined.

(** * Starting and stopping the poller *)

Lemma timer_facts (w : World) :
  let started := exec ModeSwitcher.startSignDetection w in
  let stopped := exec ModeSwitcher.stopSignDetection w in
  (detectionInterval (switcher started) = true
   ∧ exec ModeSwitcher.startSignDetection started = started
   ∧ (detectionInterval (switcher w) = true → started = w)
   ∧ (detectionInterval (switcher w) = false →
      transcriptSigns (switcher started) = Some ∅
      ∧ lastAddedSign (switcher started) = None
      ∧ lastAddedTime (switcher started) = 0))
  ∧ (detectionInterval (switcher stopped) = false
     ∧ exec ModeSwitcher.stopSignDetection stopped = stopped
     ∧ transcriptSigns (switcher stopped) = transcriptSigns (switcher w)
     ∧ transcriptSigns (switcher (exec ModeSwitcher.startSignDetection stopped)) = Some ∅)
  ∧ (page started = page w ∧ posted started = posted w
     ∧ game_item started = game_item w ∧ analytics_item started = analytics_item w
     ∧ page stopped = page w ∧ posted stopped = posted w
     ∧ game_item stopped = game_item w ∧ analytics_item stopped = analytics_item w).
Proof.
  cbv zeta. unfold exec, ModeSwitcher.startSignDetection, ModeSwitcher.stopSignDetection.
  unfold_monad. cbn [switcher set_switcher detectionInterval snd].
  destruct w as [? ? ? ? ? [[] ? ? ?] ? ? ?]; cbn; repeat split; done.
Qed.

(** X17.  [startSignDetection] leaves a timer installed and does nothing
    when one is installed already; when none was, it empties the set of
    seen signs and forgets the last added sign.  [stopSignDetection]
    removes the timer, does nothing more when called again and keeps the
    set, which the next start empties.  Neither touches the page, the
    requests sent or the stored records. *)
Theorem start_and_stop (w : World) :
  let started := exec ModeSwitcher.startSignDetection w in
  let stopped := exec ModeSwitcher.stopSignDetection w in
  (detectionInterval (switcher started) = true
   ∧ exec ModeSwitcher.startSignDetection started = started
   ∧ (detectionInterval (switcher w) = true → started = w)
   ∧ (detectionInterval (switcher w) = false →
      transcriptSigns (switcher started) = Some ∅
      ∧ lastAddedSign (switcher started) = None
      ∧ lastAddedTime (switcher started) = 0))
  ∧ (detectionInterval (switcher stopped) = false
     ∧ exec ModeSwitcher.stopSignDetection stopped = stopped
     ∧ transcriptSigns (switcher stopped) = transcriptSigns (switcher w)
     ∧ transcriptSigns (switcher (exec ModeSwitcher.startSignDetection stopped)) = Some ∅)
  ∧ (page started = page w ∧ posted started = posted w
     ∧ game_item started = game_item w ∧ analytics_item started = analytics_item w
     ∧ page stopped = page w ∧ posted stopped = posted w
     ∧ game_item stopped = game_item w ∧ analytics_item stopped = analytics_item w).
Proof. exact (timer_facts w). Qed.

(** The theorem after one committed sign: a stop and a start empty the set. *)
Lemma start_and_stop_witness :
  transcriptSigns
    (switcher (exec ModeSwitcher.startSignDetection
                    (exec ModeSwitcher.stopSignDetection
                          (exec (ModeSwitcher.pollTick (sample "hello" (9 # 10)))
                                (firstVisit 0)))))
  = Some ∅.
Proof.
  destruct (start_and_stop (exec (ModeSwitcher.pollTick (sample "hello" (9 # 10)))
                                 (firstVisit 0))) as (_ & (_ & _ & _ & H) & _).
  exact H.
Defined.

(** * Switching modes *)

Ltac unfold_shell :=
  cbv beta iota zeta delta
    [mbind SH_bind mret SH_ret sh_reads sh_writes sh_throw lift
     ModeSwitcher.show_signMode ModeSwitcher.show_speechMode
     ModeSwitcher.initSpeechRecognition].

Lemma start_ends (w : World) :
  ∃ w', ModeSwitcher.startSignDetection w = (Normal tt, w')
        ∧ w' = exec ModeSwitcher.startSignDetection w.
Proof.
  unfold exec, ModeSwitcher.startSignDetection. unfold_monad.
  destruct (detectionInterval (switcher w)); by eexists.
Qed.

Lemma stop_ends (w : World) :
  ∃ w', ModeSwitcher.stopSignDetection w = (Normal tt, w')
        ∧ w' = exec ModeSwitcher.stopSignDetection w.
Proof.
  unfold exec, ModeSwitcher.stopSignDetection. unfold_monad.
  destruct (detectionInterval (switcher w)); by eexists.
Qed.

(** The page after [switchMode mode] when both panels exist. *)
Lemma switchMode_run (mode : string) (sh : Shell) :
  is_Some (signMode sh) →
  is_Some (speechMode sh) →
  ModeSwitcher.switchMode mode sh
  = (Normal tt,
     mkShell (if String.eqb mode "sign"
              then exec ModeSwitcher.startSignDetection (world sh)
              else exec ModeSwitcher.stopSignDetection (world sh))
             mode (Some mode)
             ((λ btn, mkButton (data_mode btn) (String.eqb (data_mode btn) mode)
                               (btn_listeners btn)) <$> modeButtons sh)
             (Some (String.eqb mode "sign")) (Some (String.eqb mode "speech"))
             (if String.eqb mode "sign" then speechToggle sh
              else S <$> speechToggle sh)
             (window_toggleRecording sh) (toggleRecordingCalls sh)).
Proof.
  intros [p1 H1] [p2 H2].
  destruct sh as [w0 cm lm btns sm sp tg wt calls]. cbn in H1, H2. subst sm sp.
  unfold ModeSwitcher.switchMode. unfold_shell.
  cbn -[ModeSwitcher.startSignDetection ModeSwitcher.stopSignDetection exec].
  destruct (String.eqb mode "sign").
  - cbn [world]. destruct (start_ends w0) as (w' & E & ->). by rewrite E.
  - cbn [world]. destruct (stop_ends w0) as (w' & E & ->). rewrite E.
    cbn -[exec]. by destruct tg.
Qed.

(** X18.  With both mode panels on the page, [switchMode mode] ends
    normally, records and stores the mode, marks exactly the buttons of
    that mode active, shows the sign panel only for sign and the speech
    panel only for speech, and leaves the poller running exactly in sign
    mode.  Switching to sign while the poller runs changes nothing in the
    session; leaving sign mode keeps the set of seen signs, and coming back
    empties it. *)
Theorem the_poller_follows_the_mode (sh : Shell) (mode : string) :
  is_Some (signMode sh) →
  is_Some (speechMode sh) →
  let sh' := (ModeSwitcher.switchMode mode sh).2 in
  (ModeSwitcher.switchMode mode sh).1 = Normal tt
  ∧ currentMode sh' = mode
  ∧ learningMode sh' = Some mode
  ∧ detectionInterval (switcher (world sh')) = String.eqb mode "sign"
  ∧ signMode sh' = Some (String.eqb mode "sign")
  ∧ speechMode sh' = Some (String.eqb mode "speech")
  ∧ Forall (λ btn, btn_active btn = String.eqb (data_mode btn) mode) (modeButtons sh')
  ∧ (mode = "sign" → detectionInterval (switcher (world sh)) = true →
     world sh' = world sh)
  ∧ (mode ≠ "sign" →
     transcriptSigns (switcher (world sh')) = transcriptSigns (switcher (world sh))
     ∧ transcriptSigns
         (switcher (world (ModeSwitcher.switchMode "sign" sh').2)) = Some ∅).
Proof.
  intros H1 H2. cbv zeta. rewrite switchMode_run by done. cbn [fst snd].
  cbn [currentMode learningMode signMode speechMode modeButtons world].
  destruct (timer_facts (world sh)) as ((Hs1 & _ & Hs3 & _) & (Ht1 & _ & Ht3 & Ht4) & _).
  split; [done |]. split; [done |]. split; [done |].
  split; [by destruct (String.eqb mode "sign") |].
  split; [done |]. split; [done |].
  split; [apply Forall_fmap, Forall_true; by intros [] |].
  split.
  - intros -> Hrun. cbn. by apply Hs3.
  - intros Hne. apply String.eqb_neq in Hne. rewrite Hne.
    split; [exact Ht3 |].
    rewrite switchMode_run by done. cbn. exact Ht4.
Qed.

(** The theorem for a switch from sign to speech. *)
Lemma the_poller_follows_the_mode_witness :
  let sh := mkShell (firstVisit 0) "sign" None [mkButton "sign" true 1; mkButton "speech" false 1]
                    (Some true) (Some false) (Some 0%nat) true 0%nat in
  detectionInterval (switcher (world (ModeSwitcher.switchMode "speech" sh).2)) = false.
Proof.
  intros sh.
  destruct (the_poller_follows_the_mode sh "speech") as (_ & _ & _ & H & _).
  - by eexists.
  - by eexists.
  - exact H.
Defined.

(** X19.  Without one of the two mode panels, [switchMode] throws a
    [TypeError] after it recorded and stored the mode: the poller is
    neither started nor stopped and no speech listener is added; [init]
    throws with it, before any mode button gets its listener. *)
Theorem a_missing_panel_stops_the_switch (sh : Shell) (mode : string) :
  signMode sh = None ∨ speechMode sh = None →
  let sh' := (ModeSwitcher.switchMode mode sh).2 in
  (ModeSwitcher.switchMode mode sh).1 = Throw TypeError
  ∧ learningMode sh' = Some mode
  ∧ currentMode sh' = mode
  ∧ world sh' = world sh
  ∧ speechToggle sh' = speechToggle sh
  ∧ (ModeSwitcher.init sh).1 = Throw TypeError
  ∧ world (ModeSwitcher.init sh).2 = world sh
  ∧ btn_listeners <$> modeButtons (ModeSwitcher.init sh).2
    = btn_listeners <$> modeButtons sh.
Proof.
  intros Hmiss. cbv zeta.
  assert (Hsw : ∀ m, (ModeSwitcher.switchMode m sh).1 = Throw TypeError
                     ∧ learningMode (ModeSwitcher.switchMode m sh).2 = Some m
                     ∧ currentMode (ModeSwitcher.switchMode m sh).2 = m
                     ∧ world (ModeSwitcher.switchMode m sh).2 = world sh
                     ∧ speechToggle (ModeSwitcher.switchMode m sh).2 = speechToggle sh
                     ∧ btn_listeners <$> modeButtons (ModeSwitcher.switchMode m sh).2
                       = btn_listeners <$> modeButtons sh).
  { intros m. unfold ModeSwitcher.switchMode. unfold_shell. cbn [signMode speechMode].
    assert (Hb : btn_listeners <$>
                   ((λ btn, mkButton (data_mode btn) (String.eqb (data_mode btn) m)
                                     (btn_listeners btn)) <$> modeButtons sh)
                 = btn_listeners <$> modeButtons sh).
    { rewrite <- list_fmap_compose. by apply list_fmap_ext. }
    destruct (signMode sh) as [p1 |] eqn:E1; [| by repeat split].
    destruct Hmiss as [? | E2]; [done |]. rewrite E2. by repeat split. }
  destruct (Hsw mode) as (H1 & H2 & H3 & H4 & H5 & _).
  do 5 (split; [done |]).
  unfold ModeSwitcher.init.
  cbv beta iota zeta delta [mbind SH_bind sh_reads].
  destruct (Hsw (ModeSwitcher.savedMode (learningMode sh))) as (I1 & _ & _ & I4 & _ & I6).
  destruct (ModeSwitcher.switchMode (ModeSwitcher.savedMode (learningMode sh)) sh)
    as [c sh1].
  cbn [fst snd] in I1, I4, I6. rewrite I1. by repeat split.
Qed.

(** The theorem on a page without the sign panel. *)
Lemma a_missing_panel_stops_the_switch_witness :
  let sh := mkShell (exec ModeSwitcher.stopSignDetection (firstVisit 0)) "sign" None
                    [mkButton "sign" true 0; mkButton "speech" false 0]
                    None (Some false) (Some 0%nat) true 0%nat in
  (ModeSwitcher.init sh).1 = Throw TypeError
  ∧ detectionInterval (switcher (world (ModeSwitcher.init sh).2)) = false.
Proof.
  intros sh.
  destruct (a_missing_panel_stops_the_switch sh "sign") as (_ & _ & _ & _ & _ & H1 & H2 & _).
  - by left.
  - split; [exact H1 |]. by rewrite H2.
Defined.

(** X20.  With both mode panels, [init] after [switchMode mode] comes up
    in that mode again, for any mode but the empty text; with nothing or
    the empty text stored it comes up in sign mode with the poller
    running.  [init] ends normally and gives every mode button one more
    click listener. *)
Theorem the_mode_survives_a_reload (sh : Shell) (mode : string) :
  is_Some (signMode sh) →
  is_Some (speechMode sh) →
  (mode ≠ "" →
   currentMode (ModeSwitcher.init (ModeSwitcher.switchMode mode sh).2).2 = mode)
  ∧ (learningMode sh = None ∨ learningMode sh = Some "" →
     currentMode (ModeSwitcher.init sh).2 = "sign"
     ∧ detectionInterval (switcher (world (ModeSwitcher.init sh).2)) = true)
  ∧ (ModeSwitcher.init sh).1 = Normal tt
  ∧ btn_listeners <$> modeButtons (ModeSwitcher.init sh).2
    = S <$> (btn_listeners <$> modeButtons sh).
Proof.
  intros H1 H2.
  assert (Hinit : ∀ sh0, is_Some (signMode sh0) → is_Some (speechMode sh0) →
            (ModeSwitcher.init sh0).1 = Normal tt
            ∧ currentMode (ModeSwitcher.init sh0).2 = ModeSwitcher.savedMode (learningMode sh0)
            ∧ detectionInterval (switcher (world (ModeSwitcher.init sh0).2))
              = String.eqb (ModeSwitcher.savedMode (learningMode sh0)) "sign"
            ∧ btn_listeners <$> modeButtons (ModeSwitcher.init sh0).2
              = S <$> (btn_listeners <$> modeButtons sh0)).
  { intros sh0 Hp1 Hp2. unfold ModeSwitcher.init.
    cbv beta iota zeta delta [mbind SH_bind sh_reads sh_writes].
    rewrite switchMode_run by done. cbn.
    destruct (timer_facts (world sh0)) as ((Hs1 & _) & (Ht1 & _) & _).
    split; [done |]. split; [done |].
    split; [by destruct (String.eqb _ "sign") |].
    rewrite <- !list_fmap_compose. by apply list_fmap_ext. }
  destruct (Hinit sh H1 H2) as (I1 & I2 & I3 & I4).
  split; [| split; [| split; [exact I1 | exact I4]]].
  - intros Hne.
    assert (E : ModeSwitcher.switchMode mode sh
                = (Normal tt, (ModeSwitcher.switchMode mode sh).2))
      by (rewrite switchMode_run by done; reflexivity).
    destruct (Hinit (ModeSwitcher.switchMode mode sh).2) as (_ & J2 & _).
    + rewrite switchMode_run by done. by eexists.
    + rewrite switchMode_run by done. by eexists.
    + rewrite J2. rewrite switchMode_run by done. cbn.
      apply String.eqb_neq in Hne. by rewrite Hne.
  - intros Hstored. rewrite I2, I3. by destruct Hstored as [-> | ->].
Qed.

(** The theorem for a switch to speech and a reload. *)
Lemma the_mode_survives_a_reload_witness :
  let sh := mkShell (firstVisit 0) "sign" None [mkButton "sign" true 0; mkButton "speech" false 0]
                    (Some true) (Some false) (Some 0%nat) true 0%nat in
  currentMode (ModeSwitcher.init (ModeSwitcher.switchMode "speech" sh).2).2 = "speech".
Proof.
  intros sh.
  destruct (the_mode_survives_a_reload sh "speech") as (H & _).
  - by eexists.
  - by eexists.
  - apply H. discriminate.
Defined.

(** * Clicks *)

Lemma switches_cons (mode : string) (modes : list string) (sh : Shell) :
  switches (mode :: modes) sh = switches modes (ModeSwitcher.switchMode mode sh).2.
Proof. reflexivity. Qed.

Lemma dispatch_toggleSpeech (n : nat) (sh : Shell) :
  (dispatch n ModeSwitcher.toggleSpeech sh).1 = Normal tt
  ∧ toggleRecordingCalls (dispatch n ModeSwitcher.toggleSpeech sh).2
    = (if window_toggleRecording sh then toggleRecordingCalls sh + n
       else toggleRecordingCalls sh)%nat
  ∧ world (dispatch n ModeSwitcher.toggleSpeech sh).2 = world sh
  ∧ speechToggle (dispatch n ModeSwitcher.toggleSpeech sh).2 = speechToggle sh.
Proof.
  revert sh. induction n as [| n IH]; intros sh.
  - cbn. repeat split; try done. destruct (window_toggleRecording sh); lia.
  - cbn [dispatch]. destruct (IH (ModeSwitcher.toggleSpeech sh).2) as (I1 & I2 & I3 & I4).
    rewrite I1, I2, I3, I4.
    unfold ModeSwitcher.toggleSpeech, sh_writes. cbn [snd].
    destruct (window_toggleRecording sh) eqn:E; cbn; rewrite ?E; repeat split; lia.
Qed.

Lemma switches_listeners (modes : list string) (sh : Shell) (k : nat) :
  is_Some (signMode sh) →
  is_Some (speechMode sh) →
  speechToggle sh = Some k →
  speechToggle (switches modes sh) = Some (k + away modes)%nat
  ∧ window_toggleRecording (switches modes sh) = window_toggleRecording sh
  ∧ toggleRecordingCalls (switches modes sh) = toggleRecordingCalls sh.
Proof.
  revert sh k. induction modes as [| mode modes IH]; intros sh k H1 H2 Hk.
  - cbn. by rewrite Nat.add_0_r.
  - rewrite switches_cons.
    assert (E : ModeSwitcher.switchMode mode sh
                = (Normal tt, (ModeSwitcher.switchMode mode sh).2))
      by (rewrite switchMode_run by done; reflexivity).
    set (sh1 := (ModeSwitcher.switchMode mode sh).2) in *.
    assert (Hsh1 : is_Some (signMode sh1) ∧ is_Some (speechMode sh1)
                   ∧ speechToggle sh1
                     = Some (if String.eqb mode "sign" then k else S k)
                   ∧ window_toggleRecording sh1 = window_toggleRecording sh
                   ∧ toggleRecordingCalls sh1 = toggleRecordingCalls sh).
    { subst sh1. rewrite switchMode_run by done. cbn. rewrite Hk.
      repeat split; try by eexists. by destruct (String.eqb mode "sign"). }
    destruct Hsh1 as (P1 & P2 & P3 & P4 & P5).
    destruct (IH sh1 _ P1 P2 P3) as (I1 & I2 & I3).
    rewrite I1, I2, I3, P4, P5. split; [| done]. f_equal.
    unfold away. cbn [List.filter].
    destruct (String.eqb mode "sign"); cbn [negb length]; lia.
Qed.

(** X21.  Every switch to a mode other than sign adds one more click
    listener to the speech button.  After the switches [modes], a single
    click on it calls [window.toggleRecording] once for each listener (and
    not at all when that function is missing), and changes nothing in the
    session. *)
Theorem speech_listeners_pile_up (sh : Shell) (modes : list string) (k : nat) :
  is_Some (signMode sh) →
  is_Some (speechMode sh) →
  speechToggle sh = Some k →
  let sh' := switches modes sh in
  speechToggle sh' = Some (k + away modes)%nat
  ∧ (ModeSwitcher.clickSpeechToggle sh').1 = Normal tt
  ∧ toggleRecordingCalls (ModeSwitcher.clickSpeechToggle sh').2
    = (if window_toggleRecording sh
       then toggleRecordingCalls sh + (k + away modes)
       else toggleRecordingCalls sh)%nat
  ∧ world (ModeSwitcher.clickSpeechToggle sh').2 = world sh'.
Proof.
  intros H1 H2 Hk. cbv zeta.
  destruct (switches_listeners modes sh k H1 H2 Hk) as (E1 & E2 & E3).
  split; [exact E1 |].
  unfold ModeSwitcher.clickSpeechToggle.
  cbv beta iota zeta delta [mbind SH_bind sh_reads]. rewrite E1.
  destruct (dispatch_toggleSpeech (k + away modes) (switches modes sh))
    as (D1 & D2 & D3 & _).
  rewrite D1, D2, D3, E2, E3. done.
Qed.

(** The theorem for the switches speech, sign, speech. *)
Lemma speech_listeners_pile_up_witness :
  let sh := mkShell (firstVisit 0) "sign" None [mkButton "sign" true 1; mkButton "speech" false 1]
                    (Some true) (Some false) (Some 0%nat) true 0%nat in
  toggleRecordingCalls
    (ModeSwitcher.clickSpeechToggle (switches ["speech"; "sign"; "speech"] sh)).2
  = 2%nat.
Proof.
  intros sh.
  destruct (speech_listeners_pile_up sh ["speech"; "sign"; "speech"] 0) as (_ & _ & H & _).
  - by eexists.
  - by eexists.
  - reflexivity.
  - exact H.
Defined.

Lemma dispatch_switchMode (n : nat) (mode : string) (sh : Shell) :
  is_Some (signMode sh) →
  is_Some (speechMode sh) →
  (0 < n)%nat →
  let sh' := (dispatch n (ModeSwitcher.switchMode mode) sh).2 in
  currentMode sh' = mode
  ∧ learningMode sh' = Some mode
  ∧ detectionInterval (switcher (world sh')) = String.eqb mode "sign"
  ∧ is_Some (signMode sh') ∧ is_Some (speechMode sh').
Proof.
  intros H1 H2 Hn. cbv zeta.
  destruct n as [| n]; [lia |]. clear Hn.
  revert sh H1 H2. induction n as [| n IH]; intros sh H1 H2.
  - cbn [dispatch snd]. rewrite switchMode_run by done. cbn.
    destruct (timer_facts (world sh)) as ((Hs1 & _) & (Ht1 & _) & _).
    repeat split; try by eexists. by destruct (String.eqb mode "sign").
  - change (dispatch (S (S n)) (ModeSwitcher.switchMode mode) sh)
      with (dispatch (S n) (ModeSwitcher.switchMode mode)
                     (ModeSwitcher.switchMode mode sh).2).
    apply IH; rewrite switchMode_run by done; by eexists.
Qed.

(** X22.  After [init], on a page with both mode panels, a click on a
    mode button switches to the mode of that button: the mode is recorded
    and stored, and the poller runs exactly when it is sign. *)
Theorem a_click_selects_the_mode (sh : Shell) (btn : ModeButton) :
  is_Some (signMode sh) →
  is_Some (speechMode sh) →
  btn ∈ modeButtons (ModeSwitcher.init sh).2 →
  let sh' := (ModeSwitcher.clickMode btn (ModeSwitcher.init sh).2).2 in
  currentMode sh' = data_mode btn
  ∧ learningMode sh' = Some (data_mode btn)
  ∧ detectionInterval (switcher (world sh')) = String.eqb (data_mode btn) "sign".
Proof.
  intros H1 H2 Hin. cbv zeta.
  assert (Hinit : is_Some (signMode (ModeSwitcher.init sh).2)
                  ∧ is_Some (speechMode (ModeSwitcher.init sh).2)
                  ∧ Forall (λ b, (0 < btn_listeners b)%nat)
                           (modeButtons (ModeSwitcher.init sh).2)).
  { unfold ModeSwitcher.init.
    cbv beta iota zeta delta [mbind SH_bind sh_reads sh_writes].
    rewrite switchMode_run by done. cbn.
    split; [by eexists |]. split; [by eexists |].
    rewrite <- list_fmap_compose. apply Forall_fmap, Forall_true. intros b. cbn. lia. }
  destruct Hinit as (P1 & P2 & P3).
  assert (Hn : (0 < btn_listeners btn)%nat)
    by (eapply (proj1 (Forall_forall _ _) P3); eauto).
  unfold ModeSwitcher.clickMode.
  destruct (dispatch_switchMode (btn_listeners btn) (data_mode btn)
              (ModeSwitcher.init sh).2 P1 P2 Hn) as (D1 & D2 & D3 & _).
  done.
Qed.

(** The theorem for a click on the speech button. *)
Lemma a_click_selects_the_mode_witness :
  let sh := mkShell (firstVisit 0) "sign" None [mkButton "sign" true 0; mkButton "speech" false 0]
                    (Some true) (Some false) (Some 0%nat) true 0%nat in
  currentMode (ModeSwitcher.clickMode (mkButton "speech" false 1) (ModeSwitcher.init sh).2).2
  = "speech".
Proof.
  intros sh.
  destruct (a_click_selects_the_mode sh (mkButton "speech" false 1)) as (H & _).
  - by eexists.
  - by eexists.
  - vm_compute. apply list_elem_of_In. right. left. reflexivity.
  - exact H.
Defined.

(** * The session time *)

Lemma two_digits (s : Z) :
  0 ≤ s < 60 →
  padStart 2 "0" (decimal s) = (if s <? 10 then "0" else "") +:+ decimal s
  ∧ String.length (padStart 2 "0" (decimal s)) = 2%nat.
Proof.
  intros Hs.
  assert (Hall : forallb
            (λ n, bool_decide
                    (padStart 2 "0" (decimal (Z.of_nat n))
                     = (if Z.of_nat n <? 10 then "0" else "") +:+ decimal (Z.of_nat n)
                     ∧ String.length (padStart 2 "0" (decimal (Z.of_nat n))) = 2%nat))
            (seq 0 60) = true) by (vm_compute; reflexivity).
  rewrite forallb_forall in Hall.
  specialize (Hall (Z.to_nat s)).
  rewrite Z2Nat.id in Hall by lia.
  apply (bool_decide_unpack _), Is_true_true, Hall, in_seq. lia.
Qed.

(** X23.  For every elapsed time that is not negative the two session
    timers write the same text: the minutes, a colon, and the seconds in
    exactly two characters.  After [n + 1] ticks from zero the interval
    timer shows the text for [n + 1] seconds. *)
Theorem both_timers_show_the_same_text (elapsed : Z) (n : nat) (shown : string) :
  0 ≤ elapsed →
  Main.timeString elapsed = SessionTimer.text elapsed
  ∧ (∃ seconds,
       Main.timeString elapsed = decimal (elapsed `div` 60) +:+ ":" +:+ seconds
       ∧ String.length seconds = 2%nat)
  ∧ Nat.iter (S n) SessionTimer.tick (0, Some shown)
    = (Z.of_nat (S n), Some (Main.timeString (Z.of_nat (S n)))).
Proof.
  intros He.
  assert (Hsame : ∀ e, 0 ≤ e → Main.timeString e = SessionTimer.text e
                               ∧ String.length (padStart 2 "0" (decimal (e `rem` 60))) = 2%nat).
  { intros e H0. unfold Main.timeString, SessionTimer.text. cbv zeta.
    rewrite Z.rem_mod_nonneg by lia.
    destruct (two_digits (e `mod` 60)) as [E L]; [apply Z.mod_pos_bound; lia |].
    split; [by rewrite E | exact L]. }
  split; [by apply Hsame |]. split.
  - eexists. split; [reflexivity |]. by apply Hsame.
  - induction n as [| n IH].
    + by vm_compute.
    + rewrite Nat.iter_succ, IH. unfold SessionTimer.tick. cbn [fst snd].
      replace (Z.of_nat (S n) + 1) with (Z.of_nat (S (S n))) by lia.
      f_equal. f_equal. symmetry. apply Hsame. lia.
Qed.

(** The theorem for 125 seconds. *)
Lemma both_timers_show_the_same_text_witness :
  Main.timeString 125 = SessionTimer.text 125.
Proof.
  destruct (both_timers_show_the_same_text 125 0 "") as [H _]; [lia | exact H].
Defined.

(** * The most common sign *)






(** * The theme *)

(** X25.  [toggle] leaves the theme dark or light, stores what it set,
    and a following [init] restores it, with the icon of that theme when
    the icon is on the page.  Two toggles give back a dark or light theme;
    with nothing or the empty text stored [init] sets light; [toggle] adds
    no listener and [init] adds one to the button. *)
Theorem the_theme_survives_a_reload (p : ThemePage) :
  let q := Theme.toggle p in
  (data_theme q = Some "dark" ∨ data_theme q = Some "light")
  ∧ theme_item q = data_theme q
  ∧ data_theme (Theme.init q) = data_theme q
  ∧ (is_Some (themeIcon p) →
     themeIcon q = Some (if bool_decide (data_theme q = Some "dark")
                         then "fas fa-sun" else "fas fa-moon")
     ∧ themeIcon (Theme.init q) = themeIcon q)
  ∧ (data_theme p = Some "dark" ∨ data_theme p = Some "light" →
     data_theme (Theme.toggle q) = data_theme p)
  ∧ (theme_item p = None ∨ theme_item p = Some "" →
     data_theme (Theme.init p) = Some "light")
  ∧ themeToggle q = themeToggle p
  ∧ themeToggle (Theme.init p) = S <$> themeToggle p.
Proof.
  destruct p as [[current |] item [icon |] [n |]]; cbn;
    try destruct (String.eqb_spec current "dark") as [-> | Hne]; cbn;
    repeat split; try (by (left + right)); try done;
    try (intros [[= ->] | [= ->]]; done);
    try (intros [-> | ->]; done);
    try (intros [? | ?]; done).
Qed.

(** The theorem for two toggles from light. *)
Lemma the_theme_survives_a_reload_witness :
  data_theme (Theme.toggle (Theme.toggle (mkThemePage (Some "light") None (Some "fas fa-moon")
                                                      (Some 1%nat))))
  = Some "light".
Proof.
  destruct (the_theme_survives_a_reload
              (mkThemePage (Some "light") None (Some "fas fa-moon") (Some 1%nat)))
    as (_ & _ & _ & _ & H & _).
  apply H. by right.
Defined.

(** * The confetti *)

Lemma sweep_prefix (height : Z) (n : nat) (particles : list Particle) :
  (n ≤ length particles)%nat →
  Confetti.sweep height n particles
  = List.filter (λ p, Qle_bool (p_y p) (inject_Z height))
                (Confetti.move <$> take n particles)
    ++ drop n particles.
Proof.
  revert particles. induction n as [| i IH]; intros particles Hn; [done |].
  cbn [Confetti.sweep].
  destruct (lookup_lt_is_Some_2 particles i ltac:(lia)) as [p Hp].
  rewrite Hp. cbv zeta.
  set (p' := Confetti.move p).
  assert (Hsplit : <[i := p']> particles = take i particles ++ p' :: drop (S i) particles)
    by (apply insert_take_drop; lia).
  assert (Hlen : length (take i particles) = i) by (rewrite length_take; lia).
  rewrite (take_S_r _ _ _ Hp), fmap_app, List.filter_app.
  cbn [fmap list_fmap List.filter]. fold p'.
  destruct (Qle_bool (p_y p') (inject_Z height)).
  - rewrite IH by (rewrite length_insert; lia).
    rewrite Hsplit, take_app_length', drop_app_length' by done.
    by rewrite <- app_assoc.
  - assert (Hdel : delete i (<[i := p']> particles)
                   = take i particles ++ drop (S i) particles).
    { rewrite delete_take_drop, Hsplit, take_app_length' by done.
      f_equal. rewrite cons_middle, app_assoc.
      apply drop_app_length'. rewrite length_app. cbn. lia. }
    rewrite Hdel.
    rewrite IH by (rewrite length_app, length_drop; lia).
    rewrite take_app_length', drop_app_length' by done.
    by rewrite app_nil_r.
Qed.

Lemma animate_filters (height : Z) (particles : list Particle) :
  (Confetti.animate height particles).1
  = List.filter (λ p, Qle_bool (p_y p) (inject_Z height)) (Confetti.move <$> particles).
Proof.
  unfold Confetti.animate. cbn [fst].
  rewrite sweep_prefix by done.
  by rewrite firstn_all, drop_all, app_nil_r.
Qed.

(** The particles fall at least two units a frame. *)
Lemma animate_falls (height : Z) (floor : Q) (particles : list Particle) :
  Forall (λ p, (2 <= p_speedY p)%Q ∧ (floor <= p_y p)%Q) particles →
  Forall (λ p, (2 <= p_speedY p)%Q ∧ (floor + 2 <= p_y p)%Q
               ∧ (p_y p <= inject_Z height)%Q)
         (Confetti.animate height particles).1.
Proof.
  intros H. rewrite animate_filters.
  apply Forall_forall. intros p Hp.
  apply list_elem_of_In, filter_In in Hp as [Hin Hle].
  apply Qle_bool_iff in Hle.
  apply list_elem_of_In, list_elem_of_fmap in Hin as (p0 & -> & Hin0).
  destruct (proj1 (Forall_forall _ _) H p0 Hin0) as [Hs Hy].
  cbn in *. repeat split; [done | lra | done].
Qed.

Lemma animation_ends (height : Z) (frames : nat) (floor : Q) (particles : list Particle) :
  Forall (λ p, (2 <= p_speedY p)%Q ∧ (floor <= p_y p)%Q) particles →
  (0 < frames)%nat →
  (inject_Z height < floor + 2 * inject_Z (Z.of_nat frames))%Q →
  Confetti.animation height frames particles = ([], false).
Proof.
  revert floor particles. induction frames as [| frames IH]; intros floor particles H Hf Hh;
    [lia |].
  cbn [Confetti.animation].
  pose proof (animate_falls height floor particles H) as Hfall.
  destruct (Confetti.animate height particles) as [left more] eqn:E.
  assert (Hmore : more = negb (bool_decide (left = []))).
  { unfold Confetti.animate in E. by injection E as <- <-. }
  cbn [fst] in Hfall.
  destruct left as [| p left].
  - by rewrite Hmore.
  - rewrite Hmore. cbn.
    destruct frames as [| frames].
    + exfalso. apply Forall_cons in Hfall as [(_ & H1 & H2) _].
      change (inject_Z (Z.of_nat 1)) with 1%Q in Hh. lra.
    + apply (IH (floor + 2)%Q); [| lia |].
      * eapply Forall_impl; [exact Hfall |]. cbn. intros ? (? & ? & ?). done.
      * replace (Z.of_nat (S (S frames))) with (Z.of_nat (S frames) + 1) in Hh by lia.
        rewrite inject_Z_plus in Hh. change (inject_Z 1) with 1%Q in Hh. lra.
Qed.

Lemma created_ranges (width : Z) (r : Draws) :
  (0 <= r_speedY r)%Q →
  (0 <= r_color r < 1)%Q →
  let p := Confetti.createParticle width r in
  (p_y p == -10)%Q ∧ (2 <= p_speedY p)%Q ∧ is_Some (p_color p).
Proof.
  intros Hs [Hc0 Hc1]. cbv zeta. unfold Confetti.createParticle.
  cbn [p_y p_speedY p_color]. split; [done |]. split; [lra |].
  apply lookup_lt_is_Some_2.
  change (length Confetti.colors) with 5%nat.
  assert (0 ≤ Qfloor (r_color r * 5)).
  { change 0 with (Qfloor 0). apply Qfloor_resp_le. lra. }
  assert (Qfloor (r_color r * 5) < 5).
  { assert (Hq : (inject_Z (Qfloor (r_color r * 5)) < 5)%Q)
      by (pose proof (Qfloor_le (r_color r * 5)); lra).
    change 5%Q with (inject_Z 5) in Hq. by rewrite <- Zlt_Qlt in Hq. }
  lia.
Qed.

(** X26.  One frame of [animate], which moves the particles in place and
    splices while it walks the array backwards, leaves exactly the moved
    particles that are not below the canvas, in their order and never more
    than before; it asks for another frame exactly when some particle is
    still on the canvas after its move. *)
Theorem animate_drops_the_fallen_particles (height : Z) (particles : list Particle) :
  let frame := Confetti.animate height particles in
  frame.1 = List.filter (λ p, Qle_bool (p_y p) (inject_Z height))
                        (Confetti.move <$> particles)
  ∧ (length frame.1 ≤ length particles)%nat
  ∧ (frame.2 = true ↔ ∃ p, p ∈ particles ∧ (p_y p + p_speedY p <= inject_Z height)%Q).
Proof.
  cbv zeta. pose proof (animate_filters height particles) as Hleft.
  split; [exact Hleft |]. split.
  - rewrite Hleft. etransitivity; [apply List.filter_length_le |]. by rewrite length_fmap.
  - assert (Hflag : (Confetti.animate height particles).2
                    = negb (bool_decide ((Confetti.animate height particles).1 = [])))
      by done.
    rewrite Hflag, Hleft. split.
    + intros Hne. apply negb_true_iff, bool_decide_eq_false in Hne.
      destruct (List.filter _ _) as [| q qs] eqn:E; [done |].
      assert (Hin : In q (List.filter (λ p, Qle_bool (p_y p) (inject_Z height))
                                      (Confetti.move <$> particles)))
        by (rewrite E; by left).
      apply filter_In in Hin as [Hin Hle].
      apply list_elem_of_In, list_elem_of_fmap in Hin as (p & -> & Hp).
      exists p. split; [done |]. by apply Qle_bool_iff in Hle.
    + intros (p & Hp & Hle). apply negb_true_iff, bool_decide_eq_false. intros E.
      assert (Hin : In (Confetti.move p)
                       (List.filter (λ p, Qle_bool (p_y p) (inject_Z height))
                                    (Confetti.move <$> particles))).
      { apply filter_In. split.
        - apply list_elem_of_In, list_elem_of_fmap. by exists p.
        - by apply Qle_bool_iff. }
      rewrite E in Hin. destruct Hin.
Qed.

(** X27.  [burst] on an empty array pushes fifty particles, each with
    one of the five colours, whenever the random draws lie in [[0, 1)].
    The particles fall at least two units a frame from 10 above the
    canvas, so on a canvas of height [height >= 0] the animation has
    removed them all and stopped asking for frames after at most
    [(height + 10) div 2 + 1] frames. *)
Theorem the_confetti_always_ends
        (width height : Z) (draws : nat → Draws) (frames : nat) :
  0 ≤ height →
  (∀ i, (0 <= r_speedY (draws i))%Q ∧ (0 <= r_color (draws i) < 1)%Q) →
  (Z.to_nat ((height + 10) `div` 2) < frames)%nat →
  let particles := Confetti.burst width draws [] in
  length particles = 50%nat
  ∧ Forall (λ p, is_Some (p_color p)) particles
  ∧ Confetti.animation height frames particles = ([], false).
Proof.
  intros Hh Hdraws Hframes particles.
  assert (Hall : Forall (λ p, (2 <= p_speedY p)%Q ∧ (-10 <= p_y p)%Q ∧ is_Some (p_color p))
                        particles).
  { subst particles. unfold Confetti.burst. cbn [app].
    apply Forall_fmap, Forall_true. intros i.
    destruct (Hdraws i) as [Hs Hc].
    destruct (created_ranges width (draws i) Hs Hc) as (Hy & Hsp & Hcol).
    cbv zeta in Hy, Hsp, Hcol. repeat split; [done | | done].
    unfold Confetti.createParticle. cbn [p_y]. lra. }
  split; [done |].
  split; [eapply Forall_impl; [exact Hall |]; by intros ? (_ & _ & ?) |].
  apply (animation_ends height frames (-10)%Q).
  - eapply Forall_impl; [exact Hall |]. by intros ? (? & ? & _).
  - lia.
  - assert (Hk : (height + 10) `div` 2 + 1 ≤ Z.of_nat frames).
    { assert (0 ≤ (height + 10) `div` 2) by (apply Z.div_pos; lia). lia. }
    pose proof (Z.div_mod (height + 10) 2 ltac:(lia)) as Hdm.
    pose proof (Z.mod_pos_bound (height + 10) 2 ltac:(lia)) as Hmb.
    assert (Hz : height + 10 < 2 * Z.of_nat frames) by lia.
    assert (Hq : (inject_Z (height + 10) < inject_Z (2 * Z.of_nat frames))%Q)
      by (by rewrite <- Zlt_Qlt).
    rewrite inject_Z_plus, inject_Z_mult in Hq.
    change (inject_Z 10) with 10%Q in Hq. change (inject_Z 2) with 2%Q in Hq. lra.
Qed.

(** The theorem on a canvas of 300 by 100, every draw one half. *)
Lemma the_confetti_always_ends_witness :
  Confetti.animation 100 56
    (Confetti.burst 300 (λ _, mkDraws (1 # 2) (1 # 2) (1 # 2) (1 # 2) (1 # 2) (1 # 2) (1 # 2)) [])
  = ([], false).
Proof.
  destruct (the_confetti_always_ends 300 100
              (λ _, mkDraws (1 # 2) (1 # 2) (1 # 2) (1 # 2) (1 # 2) (1 # 2) (1 # 2)) 56)
    as (_ & _ & H).
  - lia.
  - intros _. cbn. repeat split; discriminate.
  - vm_compute. lia.
  - exact H.
Defined.

(** * The dashboard saves a sign at most once in five seconds *)

Lemma show_frame (v : LatestView) (f : Feed) :
  let f' := (Latest.show v f).2 in
  lastSavedSign f' = lastSavedSign f
  ∧ lastSavedTime f' = lastSavedTime f
  ∧ saved_detections f' = saved_detections f
  ∧ history_refreshes f' = history_refreshes f
  ∧ (el_latest_detection f = None → Latest.show v f = (Throw TypeError, f))
  ∧ (is_Some (el_latest_detection f) →
     (Latest.show v f).1 = Normal tt ∧ el_latest_detection f' = Some (Some v)).
Proof.
  unfold Latest.show.
  destruct (el_latest_detection f) as [old |] eqn:E; cbn; rewrite ?E;
    repeat split; try done; by intros [? [=]].
Qed.

(** One call: the detection is handed to [saveDetection] exactly when the
    page has the element, the answer names a sign, and the save is due. *)
Lemma fetchLatestDetection_run (now : Z) (response : option Sample) (f : Feed) :
  let f' := (Latest.fetchLatestDetection now response f).2 in
  (∃ data s, response = Some data ∧ sign data = Some s ∧ s ≠ ""
             ∧ is_Some (el_latest_detection f) ∧ Latest.due now s f = true
             ∧ f' = Latest.save now s (conf data)
                      (Latest.show (LatestSign s ((λ c, Math_round (c * 100)) <$> conf data))
                                   f).2)
  ∨ ((∀ data s, response = Some data → sign data = Some s → s ≠ "" →
        is_Some (el_latest_detection f) → Latest.due now s f = false)
     ∧ lastSavedSign f' = lastSavedSign f
     ∧ lastSavedTime f' = lastSavedTime f
     ∧ saved_detections f' = saved_detections f
     ∧ history_refreshes f' = history_refreshes f).
Proof.
  cbv zeta. unfold Latest.fetchLatestDetection.
  destruct response as [data |].
  2:{ right. destruct (show_frame LatestError f) as (? & ? & ? & ? & _).
      split; [intros; discriminate | done]. }
  unfold Latest.attempt.
  destruct (sign data) as [s |] eqn:Hs.
  2:{ right. split; [intros ? ? [= <-]; congruence |].
      destruct (el_latest_detection f) eqn:E; unfold Latest.show; rewrite E; cbn;
        rewrite ?E; done. }
  destruct (String.eqb s "") eqn:Hne.
  { apply String.eqb_eq in Hne as ->. right.
    split; [intros ? ? [= <-]; congruence |].
    destruct (el_latest_detection f) eqn:E; unfold Latest.show; rewrite E; cbn;
      rewrite ?E; done. }
  apply String.eqb_neq in Hne.
  destruct (el_latest_detection f) as [old |] eqn:E.
  2:{ right. unfold Latest.show. rewrite E. cbn. rewrite E.
      split; [| done]. intros ? ? _ _ _ [? [=]]. }
  set (v := LatestSign s ((λ c, Math_round (c * 100)) <$> conf data)).
  set (f1 := mkFeed (lastSavedSign f) (lastSavedTime f) (Some (Some v))
                    (saved_detections f) (history_refreshes f)).
  assert (Hshow : Latest.show v f = (Normal tt, f1))
    by (unfold Latest.show; by rewrite E).
  rewrite Hshow.
  change (Latest.due now s f1) with (Latest.due now s f).
  destruct (Latest.due now s f) eqn:D.
  - left. exists data, s. repeat split; try done.
    fold v. by rewrite Hshow.
  - right. split; [| done].
    intros ? s' [= <-] Hs' _ _. rewrite Hs in Hs'. by injection Hs' as <-.
Qed.

Lemma due_spaced (now : Z) (s : string) (f : Feed) :
  remembered f → spaced (saved_detections f) → Latest.due now s f = true →
  ∀ c, spaced ((now, s, c) :: saved_detections f).
Proof.
  unfold remembered, Latest.due. intros Hrem Hsp Hdue c.
  destruct (saved_detections f) as [| [[t1 s1] c1] older]; [done |].
  destruct Hrem as [Hs Ht]. cbn [spaced]. split; [| exact Hsp].
  apply orb_true_iff in Hdue as [Hd | Hd].
  - left. apply negb_true_iff, bool_decide_eq_false in Hd. rewrite Hs in Hd. congruence.
  - right. apply Z.ltb_lt in Hd. by rewrite Ht in Hd.
Qed.

Lemma fetchLatestDetection_keeps (now : Z) (response : option Sample) (f : Feed) :
  remembered f → spaced (saved_detections f) →
  let f' := (Latest.fetchLatestDetection now response f).2 in
  remembered f' ∧ spaced (saved_detections f')
  ∧ (length (saved_detections f') - length (saved_detections f)
     = history_refreshes f' - history_refreshes f)%nat
  ∧ (length (saved_detections f) ≤ length (saved_detections f'))%nat
  ∧ (el_latest_detection f = None → f' = f).
Proof.
  intros Hrem Hsp. cbv zeta.
  destruct (fetchLatestDetection_run now response f)
    as [(data & s & -> & Hs & Hne & Hel & Hdue & ->) | (_ & H1 & H2 & H3 & H4)].
  - destruct (show_frame (LatestSign s ((λ c, Math_round (c * 100)) <$> conf data)) f)
      as (E1 & E2 & E3 & E4 & _).
    cbv zeta in E1, E2, E3, E4. unfold Latest.save.
    cbn [saved_detections history_refreshes lastSavedSign lastSavedTime length].
    rewrite E3, E4. split; [done |]. split; [by apply due_spaced |].
    split; [lia |]. split; [lia |].
    intros E. destruct Hel as [? Hel]. congruence.
  - split; [unfold remembered; by rewrite H1, H2, H3 |].
    split; [by rewrite H3 |]. rewrite H3, H4. split; [lia |]. split; [lia |].
    intros E. unfold Latest.fetchLatestDetection, Latest.attempt.
    assert (Hshow : ∀ v, Latest.show v f = (Throw TypeError, f))
      by (intros v; unfold Latest.show; by rewrite E).
    destruct response as [data |]; [| by rewrite Hshow].
    destruct (sign data) as [s |]; [| by rewrite !Hshow].
    destruct (String.eqb s ""); by rewrite !Hshow.
Qed.

Lemma feedAll_cons (call : Z * option Sample) (calls : list (Z * option Sample)) (f : Feed) :
  feedAll (call :: calls) f
  = feedAll calls (Latest.fetchLatestDetection call.1 call.2 f).2.
Proof. reflexivity. Qed.

Lemma fetchLatestDetection_element (now : Z) (response : option Sample) (f : Feed) :
  is_Some (el_latest_detection f) →
  is_Some (el_latest_detection (Latest.fetchLatestDetection now response f).2).
Proof.
  intros [old E].
  assert (Hshow : ∀ v, Latest.show v f
                       = (Normal tt, mkFeed (lastSavedSign f) (lastSavedTime f) (Some (Some v))
                                            (saved_detections f) (history_refreshes f)))
    by (intros v; unfold Latest.show; by rewrite E).
  unfold Latest.fetchLatestDetection, Latest.attempt.
  destruct response as [data |]; [| by rewrite Hshow].
  destruct (sign data) as [s |]; [| by rewrite !Hshow].
  destruct (String.eqb s ""); rewrite !Hshow; [done |].
  by destruct (Latest.due now s _).
Qed.

Lemma feedAll_element (calls : list (Z * option Sample)) (f : Feed) :
  is_Some (el_latest_detection f) → is_Some (el_latest_detection (feedAll calls f)).
Proof.
  revert f. induction calls as [| call calls IH]; intros f H; [done |].
  rewrite feedAll_cons. by apply IH, fetchLatestDetection_element.
Qed.

Lemma feedAll_snoc (calls : list (Z * option Sample)) (call : Z * option Sample) (f : Feed) :
  feedAll (calls ++ [call]) f
  = (Latest.fetchLatestDetection call.1 call.2 (feedAll calls f)).2.
Proof. unfold feedAll. by rewrite foldl_app. Qed.

(** X28.  Over any calls of [fetchLatestDetection], none begun before
    the one before it finished, two saves in a row are of different signs
    or more than 5000 ms apart, and the script remembers the newest one.
    Every save asks for one refresh of the history, a call saves at most
    once, and without [#latest-detection] nothing is ever saved.  With the
    element, a call answered with a sign saves it exactly when it differs
    from the remembered sign or more than 5000 ms have passed. *)
Theorem a_sign_is_saved_once_in_five_seconds
        (calls : list (Z * option Sample)) (f : Feed) :
  remembered f →
  spaced (saved_detections f) →
  let f' := feedAll calls f in
  remembered f'
  ∧ spaced (saved_detections f')
  ∧ (∃ sent, saved_detections f' = sent ++ saved_detections f
             ∧ history_refreshes f' = (length sent + history_refreshes f)%nat
             ∧ (length sent ≤ length calls)%nat)
  ∧ (el_latest_detection f = None → f' = f)
  ∧ (is_Some (el_latest_detection f) →
     ∀ now data s, sign data = Some s → s ≠ "" →
       saved_detections (feedAll (calls ++ [(now, Some data)]) f)
       = if Latest.due now s f' then (now, s, conf data) :: saved_detections f'
         else saved_detections f').
Proof.
  intros Hrem Hsp. cbv zeta. split; [| split; [| split; [| split]]]; revert f Hrem Hsp.
  - induction calls as [| call calls IH]; intros f Hrem Hsp; [done |].
    rewrite feedAll_cons.
    destruct (fetchLatestDetection_keeps call.1 call.2 f Hrem Hsp) as (? & ? & _).
    by apply IH.
  - induction calls as [| call calls IH]; intros f Hrem Hsp; [done |].
    rewrite feedAll_cons.
    destruct (fetchLatestDetection_keeps call.1 call.2 f Hrem Hsp) as (? & ? & _).
    by apply IH.
  - induction calls as [| call calls IH]; intros f Hrem Hsp; [by exists [] |].
    rewrite feedAll_cons.
    destruct (fetchLatestDetection_keeps call.1 call.2 f Hrem Hsp) as (Hrem1 & Hsp1 & _).
    cbv zeta in Hrem1, Hsp1.
    set (f1 := (Latest.fetchLatestDetection call.1 call.2 f).2) in *.
    destruct (IH f1 Hrem1 Hsp1) as (sent & Hs & Hr & Hl).
    destruct (fetchLatestDetection_run call.1 call.2 f)
      as [(data & s & _ & _ & _ & _ & _ & E) | (_ & _ & _ & E3 & E4)].
    + fold f1 in E. exists (sent ++ [(call.1, s, conf data)]).
      destruct (show_frame (LatestSign s ((λ c, Math_round (c * 100)) <$> conf data)) f)
        as (_ & _ & F3 & F4 & _). cbv zeta in F3, F4.
      rewrite Hs, Hr, E. unfold Latest.save.
      cbn [saved_detections history_refreshes]. rewrite F3, F4.
      rewrite <- app_assoc, length_app. cbn [app length]. repeat split; [lia | lia].
    + fold f1 in E3, E4. exists sent. rewrite Hs, Hr, E3, E4.
      cbn [length]. repeat split; lia.
  - induction calls as [| call calls IH]; intros f Hrem Hsp E; [done |].
    rewrite feedAll_cons.
    destruct (fetchLatestDetection_keeps call.1 call.2 f Hrem Hsp) as (_ & _ & _ & _ & Hnone).
    cbv zeta in Hnone. rewrite (Hnone E). by apply IH.
  - intros f Hrem Hsp Hel now data s Hs Hne.
    rewrite feedAll_snoc. cbn [fst snd].
    pose proof (feedAll_element calls f Hel) as Hel'.
    destruct (fetchLatestDetection_run now (Some data) (feedAll calls f))
      as [(data' & s' & [= <-] & Hs' & _ & _ & Hdue & ->)
         | (Hnot & _ & _ & -> & _)].
    + rewrite Hs in Hs'. injection Hs' as <-. rewrite Hdue.
      destruct (show_frame (LatestSign s ((λ c, Math_round (c * 100)) <$> conf data))
                           (feedAll calls f)) as (_ & _ & F3 & _). cbv zeta in F3.
      unfold Latest.save. cbn [saved_detections]. by rewrite F3.
    + by rewrite (Hnot data s eq_refl Hs Hne Hel').
Qed.

(** The theorem for six calls on a dashboard that saved nothing yet. *)
Lemma a_sign_is_saved_once_in_five_seconds_witness :
  fst <$> saved_detections
            (feedAll [(1000, sample "hello" (9 # 10)); (2000, sample "hello" (9 # 10));
                      (3000, sample "thanks" (9 # 10)); (4000, sample "hello" (9 # 10));
                      (9000, sample "hello" (9 # 10)); (9001, sample "hello" (9 # 10))]
                     freshFeed)
  = [(9001, "hello"); (4000, "hello"); (3000, "thanks"); (1000, "hello")]
  ∧ spaced (saved_detections
              (feedAll [(1000, sample "hello" (9 # 10)); (2000, sample "hello" (9 # 10));
                        (3000, sample "thanks" (9 # 10)); (4000, sample "hello" (9 # 10));
                        (9000, sample "hello" (9 # 10)); (9001, sample "hello" (9 # 10))]
                       freshFeed)).
Proof.
  split; [reflexivity |].
  destruct (a_sign_is_saved_once_in_five_seconds
              [(1000, sample "hello" (9 # 10)); (2000, sample "hello" (9 # 10));
               (3000, sample "thanks" (9 # 10)); (4000, sample "hello" (9 # 10));
               (9000, sample "hello" (9 # 10)); (9001, sample "hello" (9 # 10))]
              freshFeed) as (_ & H & _).
  - exact I.
  - exact I.
  - exact H.
Defined.
